(** * VoiceNote Transcriber: the request pipeline of [backend/main.py]

    The backend is a FastAPI application with three handlers ([root],
    [health_check], [transcribe]) and two adapters ([transcribe_audio],
    [structure_with_ollama]).  This development embeds them as pure functions:

    - Python values are the inductive [pyvalue]; a [dict] with string keys is
      a [gmap string pyvalue];
    - a call that may raise returns an [outcome] ([Return v] or [Raise e]);
      [try ... except C] is [try_except] with the class test of [C];
    - third-party pure functions (pathlib, [str.lower], [json.loads], [str] of
      an exception) are the interface [PyLib]; the theorems hold for every
      implementation, and [RefLib] gives one that runs;
    - everything a request observes of the outside (the upload stream, the
      temporary file, the recognizer, the Ollama service) is a [World];
    - the files that exist on disk are a [gset string], threaded through
      [transcribe]. *)

From stdpp Require Import gmap strings list fin_maps pretty.
From Stdlib Require Import ZArith String Ascii.

#[local] Open Scope Z_scope.
#[local] Open Scope string_scope.

(** ** Python values *)

Module Py.

#[local] Unset Elimination Schemes.

(** The values [json.loads] produces and [JSONResponse] accepts.  A float is
    kept as the lexeme it was read from: no handler computes with one. *)
Inductive pyvalue : Type :=
| PNone
| PBool (b : bool)
| PInt (n : Z)
| PFloat (lexeme : string)
| PStr (s : string)
| PList (l : list pyvalue)
| PDict (d : gmap string pyvalue).

#[local] Set Elimination Schemes.

(** The exception classes the handlers raise, catch or let through.
    [RequestException] stands for [requests.exceptions.RequestException] and
    its subclasses ([ConnectionError], [Timeout], ...);
    [RequestsJSONDecodeError] is the one [Response.json] raises, a subclass
    of both [RequestException] and [json.JSONDecodeError];
    [BaseExceptionOnly] is an exception outside [Exception]
    ([KeyboardInterrupt], [asyncio.CancelledError], ...). *)
Inductive exception : Type :=
| HTTPException (status_code : Z) (detail : string)
| RequestException (msg : string)
| RequestsJSONDecodeError (msg : string)
| JSONDecodeError (msg : string)
| AttributeError (msg : string)
| TypeError (msg : string)
| KeyError (key : string)
| UnboundLocalError (variable : string)
| OtherException (msg : string)
| BaseExceptionOnly (msg : string).

(** [isinstance(e, Exception)] *)
Definition is_Exception (e : exception) : bool :=
  match e with
  | BaseExceptionOnly _ => false
  | _ => true
  end.

(** [isinstance(e, requests.exceptions.RequestException)] *)
Definition is_RequestException (e : exception) : bool :=
  match e with
  | RequestException _ | RequestsJSONDecodeError _ => true
  | _ => false
  end.

(** [isinstance(e, json.JSONDecodeError)] *)
Definition is_JSONDecodeError (e : exception) : bool :=
  match e with
  | JSONDecodeError _ | RequestsJSONDecodeError _ => true
  | _ => false
  end.

(** A bare [except:] *)
Definition is_BaseException (e : exception) : bool := true.

(** The result of evaluating a Python expression or block. *)
Inductive outcome (A : Type) : Type :=
| Return (a : A)
| Raise (e : exception).
#[global] Arguments Return {A} a.
#[global] Arguments Raise {A} e.

#[global] Instance outcome_ret : MRet outcome := @Return.
#[global] Instance outcome_bind : MBind outcome := λ A B f m,
  match m with
  | Return a => f a
  | Raise e => Raise e
  end.
#[global] Instance outcome_fmap : FMap outcome := λ A B f m,
  match m with
  | Return a => Return (f a)
  | Raise e => Raise e
  end.

(** [try: body except C as e: handler e], where [catches] is the class test
    of [C].  An exception the handler raises leaves the statement. *)
Definition try_except {A} (body : outcome A) (catches : exception → bool)
    (handler : exception → outcome A) : outcome A :=
  match body with
  | Return a => Return a
  | Raise e => if catches e then handler e else Raise e
  end.

(** [d.get(key, default)]: only a [dict] has the method. *)
Definition get (v : pyvalue) (key : string) (fallback : pyvalue) : outcome pyvalue :=
  match v with
  | PDict d => Return (default fallback (d !! key))
  | _ => Raise (AttributeError "object has no attribute 'get'")
  end.

(** [d[key]] on a [dict] *)
Definition getitem (d : gmap string pyvalue) (key : string) : outcome pyvalue :=
  match d !! key with
  | Some v => Return v
  | None => Raise (KeyError key)
  end.

(** The newline character of a Python string literal's [\n]. *)
Definition nl : string := String "010" EmptyString.

(** [sep.join(parts)] *)
Definition join (sep : string) (parts : list string) : string :=
  String.concat sep parts.

End Py.
Export Py.

(** ** Third-party pure functions *)

(** What the handlers call from pathlib, [str], [json] and the exception
    classes.  None of it is code of this repository. *)
Class PyLib : Type := {
  (** [Path(name).suffix] *)
  Path_suffix : string → string;
  (** [s.lower()] *)
  lower : string → string;
  (** [json.loads(s)] on a [str] *)
  json_loads : string → outcome pyvalue;
  (** [str(e)] *)
  str : exception → string;
}.

(** ** The outside of one request *)

Module requests.

(** A [requests.Response]: status line, body text, and what [.json()]
    gives on that body. *)
Record Response : Type := {
  status_code : Z;
  text : string;
  json : outcome pyvalue;
}.

End requests.

Module whisper.

(** A segment of recognized speech; only [.text] is read. *)
Record Segment : Type := { text : string }.

End whisper.

(** The uploaded part: [file.filename] and the result of [await file.read()].
    A multipart part without a filename is not an upload and does not reach
    the handler, so the filename is a [str]. *)
Record UploadFile : Type := {
  filename : string;
  read : outcome string;
}.

Record World : Type := {
  (** [os.getenv("OLLAMA_URL", "http://ollama:11434")] *)
  OLLAMA_URL : string;
  (** [tempfile.NamedTemporaryFile(delete=False, suffix=...)]: the name of
      the file it created, or the exception it raised *)
  NamedTemporaryFile : string → outcome string;
  (** [temp_file.write(content)] *)
  temp_file_write : string → outcome ();
  (** [temp_file.flush()] *)
  temp_file_flush : outcome ();
  (** [model.transcribe(audio_path, beam_size=...)] and the iteration over the
      segments it yields (both happen inside one [try]) *)
  model_transcribe : string → Z → outcome (list whisper.Segment);
  (** [requests.post(url, json=..., timeout=...)] *)
  requests_post : string → gmap string pyvalue → Z → outcome requests.Response;
  (** [requests.get(url, timeout=...)] *)
  requests_get : string → Z → outcome requests.Response;
}.

(** ** backend/main.py

    The handlers follow the source statement by statement; the [print]
    calls, which only write to the log, are left out. *)

(** [JSONResponse(content=...)], with its default status 200.  Rendering
    the content is taken to succeed: it does on strings and booleans, and
    would not on a float that is not finite. *)
Record JSONResponse : Type := { content : gmap string pyvalue }.

Section main.
Context `{PyLib}.

(** A text between double quotes, as the prompt template spells its keys. *)
Definition quoted (s : string) : string :=
  String "034" s +:+ String "034" EmptyString.

(** [transcribe_audio] *)
Definition transcribe_audio (w : World) (audio_path : string) : outcome string :=
  try_except
    (segments ← model_transcribe w audio_path 5;
     let transcription := join " " (map whisper.text segments) in
     Return transcription)
    is_Exception
    (λ e, Raise (HTTPException 500 ("Transcription failed: " +:+ str e))).

(** The f-string [prompt] of [structure_with_ollama]. *)
Definition prompt (transcription : string) : string :=
  join nl [
    "You are a helpful assistant that converts voice note transcriptions into well-structured markdown documents.";
    EmptyString;
    "Given the following transcription, please:";
    "1. Create a clear, descriptive title for the content";
    "2. Structure the content into a well-formatted markdown document with appropriate headings, bullet points, and sections";
    "3. Fix any grammar or punctuation issues";
    "4. Make it readable and professional";
    EmptyString;
    "Transcription:";
    transcription;
    EmptyString;
    "Please respond with a JSON object containing:";
    "- " +:+ quoted "title" +:+ ": A concise, descriptive title (without markdown formatting)";
    "- " +:+ quoted "content" +:+ ": The full formatted markdown content (including the title as # heading)";
    EmptyString;
    "Example response format:";
    "{";
    "  " +:+ quoted "title" +:+ ": " +:+ quoted "Meeting Notes - Project Update" +:+ ",";
    "  " +:+ quoted "content" +:+ ": " +:+ quoted "# Meeting Notes - Project Update\n\n## Key Points\n\n- Point 1\n- Point 2\n\n## Action Items\n\n1. Task 1\n2. Task 2";
    "}";
    EmptyString
  ].

(** The [json=] argument of the generation request. *)
Definition generate_request (transcription : string) : gmap string pyvalue :=
  {[ "model" := PStr "qwen2.5:7b";
     "prompt" := PStr (prompt transcription);
     "stream" := PBool false;
     "format" := PStr "json" ]}.

(** [structure_with_ollama].  [json.loads] of anything but a [str] is a
    [TypeError]; the inner [except] therefore only ever formats a [str]. *)
Definition structure_with_ollama (w : World) (transcription : string)
    : outcome (gmap string pyvalue) :=
  try_except
    (response ← requests_post w (OLLAMA_URL w +:+ "/api/generate")
                  (generate_request transcription) 120;
     if negb (requests.status_code response =? 200)%Z then
       Raise (HTTPException 500
                ("Ollama request failed: " +:+ requests.text response))
     else
       result ← requests.json response;
       response_text ← get result "response" (PStr EmptyString);
       match response_text with
       | PStr response_text =>
           try_except
             (structured_data ← json_loads response_text;
              title ← get structured_data "title" (PStr "Voice Note");
              content ← get structured_data "content" (PStr transcription);
              Return ({[ "title" := title; "content" := content ]}
                        : gmap string pyvalue))
             is_JSONDecodeError
             (λ _, Return {[ "title" := PStr "Voice Note Transcription";
                             "content" := PStr ("# Voice Note Transcription"
                                                +:+ nl +:+ nl +:+ response_text) ]})
       | _ => Raise (TypeError "the JSON object must be str, bytes or bytearray")
       end)
    is_RequestException
    (λ e, Raise (HTTPException 503 ("Ollama service unavailable: " +:+ str e))).

(** [root] *)
Definition root : outcome (gmap string pyvalue) :=
  Return {[ "status" := PStr "healthy";
            "service" := PStr "VoiceNote Transcriber API" ]}.

(** [health_check] *)
Definition health_check (w : World) : outcome (gmap string pyvalue) :=
  let ollama_status := "unknown" in
  ollama_status ←
    try_except
      (response ← requests_get w (OLLAMA_URL w +:+ "/api/tags") 5;
       Return (if (requests.status_code response =? 200)%Z
               then "healthy" else "unhealthy"))
      is_BaseException
      (λ _, Return "unavailable");
  Return {[ "api" := PStr "healthy";
            "whisper" := PStr "loaded";
            "ollama" := PStr ollama_status ]}.

End main.

(** *** The [/transcribe] handler *)

Section transcribe.
Context `{PyLib}.

Definition allowed_extensions : list string :=
  [".mp3"; ".wav"; ".m4a"; ".ogg"; ".flac"; ".aac"].

(** The statements of the [try] block that run before [temp_path] is
    assigned: read the upload, write it to the temporary file, flush. *)
Definition stage (w : World) (file : UploadFile) : outcome () :=
  content ← read file;
  _ ← temp_file_write w content;
  temp_file_flush w.

(** The [try] block.  Besides its outcome it gives the binding of the local
    [temp_path] at the moment the block is left ([None]: never assigned). *)
Definition transcribe_try (w : World) (file : UploadFile) (temp_file_name : string)
    : option string * outcome JSONResponse :=
  match stage w file with
  | Raise e => (None, Raise e)
  | Return _ =>
      let temp_path := temp_file_name in
      (Some temp_path,
       transcription ← transcribe_audio w temp_path;
       structured ← structure_with_ollama w transcription;
       title ← getitem structured "title";
       markdown ← getitem structured "content";
       Return {| content :=
                   {[ "success" := PBool true;
                      "filename" := PStr (filename file);
                      "transcription" := PStr transcription;
                      "title" := title;
                      "markdown" := markdown ]} |})
  end.

(** The [finally] block: [if os.path.exists(temp_path): os.unlink(temp_path)].
    Reading an unassigned local raises [UnboundLocalError]. *)
Definition cleanup (temp_path : option string) (fs : gset string)
    : outcome () * gset string :=
  match temp_path with
  | None => (Raise (UnboundLocalError "temp_path"), fs)
  | Some temp_path =>
      if decide (temp_path ∈ fs) then (Return (), fs ∖ {[temp_path]})
      else (Return (), fs)
  end.

(** Leaving [try ... finally]: an exception of the [finally] block replaces
    whatever was pending; otherwise the pending outcome goes on. *)
Definition try_finally {A} (pending : outcome A) (final : outcome ()) : outcome A :=
  match final with
  | Raise e => Raise e
  | Return _ => pending
  end.

(** [transcribe]: the handler's outcome and the files on disk afterwards.
    The [with] statement closes the temporary file and, with [delete=False],
    leaves it on disk; closing the file and unlinking a file that exists
    are taken to succeed. *)
Definition transcribe (w : World) (file : UploadFile) (fs : gset string)
    : outcome JSONResponse * gset string :=
  let file_ext := lower (Path_suffix (filename file)) in
  if decide (file_ext ∉ allowed_extensions) then
    (Raise (HTTPException 400
              ("Unsupported file type '" +:+ file_ext +:+ "'. Allowed: "
               +:+ join ", " allowed_extensions)), fs)
  else
    match NamedTemporaryFile w file_ext with
    | Raise e => (Raise e, fs)
    | Return temp_file_name =>
        let fs := {[temp_file_name]} ∪ fs in
        let '(temp_path, r) := transcribe_try w file temp_file_name in
        let r := try_except r is_Exception
                   (λ e, Raise (HTTPException 500 (str e))) in
        let '(final, fs) := cleanup temp_path fs in
        (try_finally r final, fs)
    end.

End transcribe.

(** *** What the caller receives *)

Record HTTPResponse : Type := {
  status : Z;
  body : pyvalue;
}.

(** FastAPI's treatment of a handler's outcome: a returned response is sent
    as it is; an [HTTPException] becomes its status code with the body
    [{"detail": ...}]; any other [Exception] becomes a plain 500; an
    exception outside [Exception] reaches the server and no response is
    produced. *)
Definition respond (r : outcome JSONResponse) : option HTTPResponse :=
  match r with
  | Return response => Some {| status := 200; body := PDict (content response) |}
  | Raise (HTTPException status_code detail) =>
      Some {| status := status_code; body := PDict {[ "detail" := PStr detail ]} |}
  | Raise e =>
      if is_Exception e
      then Some {| status := 500; body := PStr "Internal Server Error" |}
      else None
  end.

(** A handler that returns a plain [dict] has it wrapped in a [JSONResponse]. *)
Definition respond_dict (r : outcome (gmap string pyvalue)) : option HTTPResponse :=
  respond (Build_JSONResponse <$> r).

(** The field [key] of a response's JSON body, if the body is an object
    that has it. *)
Definition field (response : HTTPResponse) (key : string) : option pyvalue :=
  match body response with
  | PDict d => d !! key
  | _ => None
  end.

(** ** A library that runs

    An implementation of [PyLib] for evaluating the handlers on concrete
    requests: CPython's [PurePosixPath.suffix] (up to 3.13), [str.lower] on
    ASCII letters, Starlette's [HTTPException.__str__], and a decoder for
    JSON texts as [json.loads] of CPython 3.11 reads them, with its limits
    on nesting and on the digits of an integer.  Strings are byte strings
    (UTF-8); a [\u] escape of a surrogate half that has no partner has no
    such string and is reported as unsupported instead of decoded. *)

Module RefLib.

#[local] Open Scope char_scope.

(** [s.split(sep)] *)
Fixpoint split (sep : ascii) (s : string) : list string :=
  match s with
  | EmptyString => [EmptyString]
  | String c s' =>
      if Ascii.eqb c sep then EmptyString :: split sep s'
      else match split sep s' with
           | part :: parts => String c part :: parts
           | [] => [String c EmptyString]
           end
  end.

(** [PurePosixPath(p).name]: the last component, empty and [.] components
    being dropped when the path is parsed. *)
Definition Path_name (p : string) : string :=
  let keep part := negb (String.eqb part EmptyString || String.eqb part ".") in
  List.last (List.filter keep (split "/" p)) EmptyString.

(** [s.rfind(c)] *)
Fixpoint rfind (c : ascii) (s : string) : option nat :=
  match s with
  | EmptyString => None
  | String a s' =>
      match rfind c s' with
      | Some i => Some (S i)
      | None => if Ascii.eqb a c then Some O else None
      end
  end.

Definition Path_suffix (p : string) : string :=
  let name := Path_name p in
  match rfind "." name with
  | Some i =>
      if Nat.ltb 0 i && Nat.ltb i (String.length name - 1)
      then String.substring i (String.length name - i) name
      else EmptyString
  | None => EmptyString
  end.

Definition lower_char (c : ascii) : ascii :=
  let n := nat_of_ascii c in
  if Nat.leb 65 n && Nat.leb n 90 then ascii_of_nat (n + 32) else c.

Fixpoint lower (s : string) : string :=
  match s with
  | EmptyString => EmptyString
  | String c s' => String (lower_char c) (lower s')
  end.

Definition str (e : exception) : string :=
  match e with
  | HTTPException status_code detail => pretty status_code +:+ ": " +:+ detail
  | RequestException msg | RequestsJSONDecodeError msg | JSONDecodeError msg
  | AttributeError msg | TypeError msg | OtherException msg
  | BaseExceptionOnly msg => msg
  | KeyError key => "'" +:+ key +:+ "'"
  | UnboundLocalError variable =>
      "cannot access local variable '" +:+ variable
      +:+ "' where it is not associated with a value"
  end%string.

(** *** JSON decoding *)

(** The result of scanning a prefix of the text: a value and what follows
    it, a syntax error ([JSONDecodeError]), another exception raised while
    decoding (a limit of the interpreter), or a text outside this decoder. *)
Inductive scan (A : Type) : Type :=
| Parsed (a : A) (rest : string)
| Malformed
| Faulted (e : exception)
| Unsupported.
#[global] Arguments Parsed {A} a rest.
#[global] Arguments Malformed {A}.
#[global] Arguments Faulted {A} e.
#[global] Arguments Unsupported {A}.

Definition scan_map {A B} (f : A → B) (r : scan A) : scan B :=
  match r with
  | Parsed a rest => Parsed (f a) rest
  | Malformed => Malformed
  | Faulted e => Faulted e
  | Unsupported => Unsupported
  end.

Definition is_ws (c : ascii) : bool :=
  Ascii.eqb c " " || Ascii.eqb c "009" || Ascii.eqb c "010" || Ascii.eqb c "013".

Fixpoint skip_ws (s : string) : string :=
  match s with
  | String c s' => if is_ws c then skip_ws s' else s
  | EmptyString => s
  end.

Definition is_digit (c : ascii) : bool :=
  let n := nat_of_ascii c in Nat.leb 48 n && Nat.leb n 57.

(** The longest prefix of digits, and what follows it. *)
Fixpoint digits (s : string) : string * string :=
  match s with
  | String c s' =>
      if is_digit c then let '(ds, rest) := digits s' in (String c ds, rest)
      else (EmptyString, s)
  | EmptyString => (EmptyString, s)
  end.

Definition Z_of_digits (ds : string) : Z :=
  fold_left (λ acc c, 10 * acc + Z.of_nat (nat_of_ascii c - 48))%Z
            (list_ascii_of_string ds) 0%Z.

(** [strip_prefix p s]: what follows [p] in [s], when [s] starts with [p]. *)
Fixpoint strip_prefix (p s : string) : option string :=
  match p, s with
  | EmptyString, _ => Some s
  | String a p', String b s' => if Ascii.eqb a b then strip_prefix p' s' else None
  | String _ _, EmptyString => None
  end.

Definition hex_digit (c : ascii) : option N :=
  let n := N_of_ascii c in
  if (48 <=? n)%N && (n <=? 57)%N then Some (n - 48)%N
  else if (65 <=? n)%N && (n <=? 70)%N then Some (n - 55)%N
  else if (97 <=? n)%N && (n <=? 102)%N then Some (n - 87)%N
  else None.

(** The UTF-8 bytes of a code point. *)
Definition utf8 (cp : N) : string :=
  let byte n := ascii_of_N n in
  if (cp <? 128)%N then String (byte cp) EmptyString
  else if (cp <? 2048)%N then
    String (byte (192 + cp / 64)%N) (String (byte (128 + cp mod 64)%N) EmptyString)
  else if (cp <? 65536)%N then
    String (byte (224 + cp / 4096)%N)
      (String (byte (128 + (cp / 64) mod 64)%N)
         (String (byte (128 + cp mod 64)%N) EmptyString))
  else
    String (byte (240 + cp / 262144)%N)
      (String (byte (128 + (cp / 4096) mod 64)%N)
         (String (byte (128 + (cp / 64) mod 64)%N)
            (String (byte (128 + cp mod 64)%N) EmptyString))).

(** The code unit written by the four hex digits after [\u]. *)
Definition hex4 (a b c d : ascii) : option N :=
  match hex_digit a, hex_digit b, hex_digit c, hex_digit d with
  | Some a, Some b, Some c, Some d => Some (((a * 16 + b) * 16 + c) * 16 + d)%N
  | _, _, _, _ => None
  end.

Definition is_high_surrogate (u : N) : bool := (55296 <=? u)%N && (u <=? 56319)%N.
Definition is_low_surrogate (u : N) : bool := (56320 <=? u)%N && (u <=? 57343)%N.

Definition simple_escape (c : ascii) : option ascii :=
  if Ascii.eqb c "034" then Some "034"
  else if Ascii.eqb c "\" then Some "\"
  else if Ascii.eqb c "/" then Some "/"
  else if Ascii.eqb c "b" then Some "008"
  else if Ascii.eqb c "f" then Some "012"
  else if Ascii.eqb c "n" then Some "010"
  else if Ascii.eqb c "r" then Some "013"
  else if Ascii.eqb c "t" then Some "009"
  else None.

(** A string literal after its opening quote, up to and including the
    closing quote (strict mode: a raw control character is an error).  Two
    [\u] escapes that form a surrogate pair give one code point. *)
Fixpoint string_body (s : string) : scan string :=
  match s with
  | EmptyString => Malformed
  | String c s' =>
      if Ascii.eqb c "034" then Parsed EmptyString s'
      else if Ascii.eqb c "\" then
        match s' with
        | EmptyString => Malformed
        | String e s'' =>
            match simple_escape e with
            | Some x => scan_map (String x) (string_body s'')
            | None =>
                if Ascii.eqb e "u" then
                  match s'' with
                  | String a (String b (String c (String d rest))) =>
                      match hex4 a b c d with
                      | None => Malformed
                      | Some u =>
                          if is_high_surrogate u then
                            match rest with
                            | String bs (String u' (String a' (String b'
                                (String c' (String d' rest'))))) =>
                                if Ascii.eqb bs "\" && Ascii.eqb u' "u" then
                                  match hex4 a' b' c' d' with
                                  | None => Malformed
                                  | Some lo =>
                                      if is_low_surrogate lo then
                                        scan_map
                                          (String.append
                                             (utf8 (65536 + (u - 55296) * 1024
                                                    + (lo - 56320))%N))
                                          (string_body rest')
                                      else Unsupported
                                  end
                                else Unsupported
                            | _ => Unsupported
                            end
                          else if is_low_surrogate u then Unsupported
                          else scan_map (String.append (utf8 u)) (string_body rest)
                      end
                  | _ => Malformed
                  end
                else Malformed
            end
        end
      else if Nat.ltb (nat_of_ascii c) 32 then Malformed
      else scan_map (String c) (string_body s')
  end.

(** [int] refuses a text of more than 4300 digits with a [ValueError]
    ([sys.get_int_max_str_digits()]). *)
Definition int_max_str_digits : nat := 4300.

(** A number literal: an optional minus sign, an integer part without
    leading zeros, an optional fraction, an optional exponent. *)
Definition number (s : string) : scan pyvalue :=
  let '(sign, s1) :=
    match s with
    | String c r => if Ascii.eqb c "-" then ("-"%string, r) else (EmptyString, s)
    | EmptyString => (EmptyString, s)
    end in
  match s1 with
  | String c r =>
      if is_digit c then
        let '(int_part, r1) :=
          if Ascii.eqb c "0" then ("0"%string, r)
          else let '(ds, r') := digits r in (String c ds, r') in
        let '(frac, r2) :=
          match r1 with
          | String dot r' =>
              let '(fs, r'') := digits r' in
              if Ascii.eqb dot "." && negb (String.eqb fs EmptyString)
              then (String dot fs, r'') else (EmptyString, r1)
          | EmptyString => (EmptyString, r1)
          end in
        let '(exponent, r3) :=
          match r2 with
          | String e r' =>
              let '(sg, r'') :=
                match r' with
                | String x r'' =>
                    if Ascii.eqb x "+" || Ascii.eqb x "-"
                    then (String x EmptyString, r'') else (EmptyString, r')
                | EmptyString => (EmptyString, r')
                end in
              let '(es, r''') := digits r'' in
              if (Ascii.eqb e "e" || Ascii.eqb e "E")
                 && negb (String.eqb es EmptyString)
              then (String e (sg +:+ es), r''') else (EmptyString, r2)
          | EmptyString => (EmptyString, r2)
          end in
        if String.eqb frac EmptyString && String.eqb exponent EmptyString
        then
          if Nat.ltb int_max_str_digits (String.length int_part)
          then Faulted (OtherException
                 "Exceeds the limit (4300 digits) for integer string conversion")
          else Parsed (PInt (if String.eqb sign EmptyString
                             then Z_of_digits int_part
                             else - Z_of_digits int_part)%Z) r3
        else Parsed (PFloat (sign +:+ int_part +:+ frac +:+ exponent)) r3
      else Malformed
  | EmptyString => Malformed
  end.

(** A literal name ([null], [true], [false], [NaN], [Infinity], [-Infinity]). *)
Definition constant (s : string) : scan pyvalue :=
  let try name v otherwise :=
    match strip_prefix name s with
    | Some rest => Parsed v rest
    | None => otherwise
    end in
  try "null"%string PNone
    (try "true"%string (PBool true)
       (try "false"%string (PBool false)
          (try "NaN"%string (PFloat "NaN")
             (try "Infinity"%string (PFloat "Infinity")
                (try "-Infinity"%string (PFloat "-Infinity") Malformed))))).

(** The decoder enters every array and object through a recursive call
    of the interpreter, whose recursion limit is 1000 frames by default; the
    call of [json.loads] itself takes some, so 999 nested containers is the
    most that can be left. *)
Definition recursion_limit : nat := 999.

Definition RecursionError (container : string) : exception :=
  OtherException ("maximum recursion depth exceeded while decoding a JSON "
                  +:+ container +:+ " from a unicode string").

(** One JSON value at the head of [s] (no leading white space), then the
    members of an object after its opening brace or a comma, and the
    elements of an array likewise.  [depth] is the number of containers
    that may still be entered; [fuel] only makes the recursion structural. *)
Fixpoint value (depth fuel : nat) (s : string) {struct fuel} : scan pyvalue :=
  match fuel with
  | O => Unsupported
  | S fuel =>
      match s with
      | EmptyString => Malformed
      | String c r =>
          if Ascii.eqb c "034" then scan_map PStr (string_body r)
          else if Ascii.eqb c "{" then
            match depth with
            | O => Faulted (RecursionError "object")
            | S depth =>
                match skip_ws r with
                | String c' r' =>
                    if Ascii.eqb c' "}" then Parsed (PDict ∅) r'
                    else members depth fuel (skip_ws r) ∅
                | EmptyString => Malformed
                end
            end
          else if Ascii.eqb c "[" then
            match depth with
            | O => Faulted (RecursionError "array")
            | S depth =>
                match skip_ws r with
                | String c' r' =>
                    if Ascii.eqb c' "]" then Parsed (PList []) r'
                    else elements depth fuel (skip_ws r) []
                | EmptyString => Malformed
                end
            end
          else
            match constant s with
            | Parsed v rest =>
                match number s with
                | Parsed n rest' => Parsed n rest'
                | _ => Parsed v rest
                end
            | _ => number s
            end
      end
  end
with members (depth fuel : nat) (s : string) (acc : gmap string pyvalue)
    {struct fuel} : scan pyvalue :=
  match fuel with
  | O => Unsupported
  | S fuel =>
      match s with
      | EmptyString => Malformed
      | String c r =>
          if Ascii.eqb c "034" then
            match string_body r with
            | Parsed key r =>
                match skip_ws r with
                | String colon r =>
                    if Ascii.eqb colon ":" then
                      match value depth fuel (skip_ws r) with
                      | Parsed v r =>
                          let acc := <[key := v]> acc in
                          match skip_ws r with
                          | String c' r =>
                              if Ascii.eqb c' "}" then Parsed (PDict acc) r
                              else if Ascii.eqb c' ","
                              then members depth fuel (skip_ws r) acc
                              else Malformed
                          | EmptyString => Malformed
                          end
                      | Malformed => Malformed
                      | Faulted e => Faulted e
                      | Unsupported => Unsupported
                      end
                    else Malformed
                | EmptyString => Malformed
                end
            | Malformed => Malformed
            | Faulted e => Faulted e
            | Unsupported => Unsupported
            end
          else Malformed
      end
  end
with elements (depth fuel : nat) (s : string) (acc : list pyvalue)
    {struct fuel} : scan pyvalue :=
  match fuel with
  | O => Unsupported
  | S fuel =>
      match value depth fuel s with
      | Parsed v r =>
          let acc := (acc ++ [v])%list in
          match skip_ws r with
          | String c' r =>
              if Ascii.eqb c' "]" then Parsed (PList acc) r
              else if Ascii.eqb c' "," then elements depth fuel (skip_ws r) acc
              else Malformed
          | EmptyString => Malformed
          end
      | Malformed => Malformed
      | Faulted e => Faulted e
      | Unsupported => Unsupported
      end
  end.

(** [json.loads] with [limit] containers left to enter: one value between
    optional white space, nothing after.  Every call of the scanner reads
    at least one character or stops, so twice the length of the text is
    fuel enough. *)
Definition json_loads_within (limit : nat) (s : string) : outcome pyvalue :=
  match value limit (2 * String.length s + 2) (skip_ws s) with
  | Parsed v rest =>
      match skip_ws rest with
      | EmptyString => Return v
      | String _ _ => Raise (JSONDecodeError "Extra data")
      end
  | Malformed => Raise (JSONDecodeError "Expecting value")
  | Faulted e => Raise e
  | Unsupported => Raise (OtherException "unsupported escape")
  end.

Definition json_loads (s : string) : outcome pyvalue :=
  json_loads_within recursion_limit s.

(** *** JSON encoding of a string *)

Definition hex_char (n : nat) : ascii :=
  if Nat.ltb n 10 then ascii_of_nat (48 + n) else ascii_of_nat (87 + n).

(** One character inside a string literal: the double quote, the
    backslash and the control characters are escaped. *)
Definition dumps_char (c : ascii) : string :=
  if Ascii.eqb c "034" then String "\" (String "034" EmptyString)
  else if Ascii.eqb c "\" then String "\" (String "\" EmptyString)
  else if Ascii.eqb c "010" then String "\" (String "n" EmptyString)
  else if Nat.ltb (nat_of_ascii c) 32 then
    String "\" (String "u" (String "0" (String "0"
      (String (hex_char (nat_of_ascii c / 16))
         (String (hex_char (nat_of_ascii c mod 16)) EmptyString)))))
  else String c EmptyString.

Fixpoint dumps_chars (s : string) : string :=
  match s with
  | EmptyString => EmptyString
  | String c s' => dumps_char c +:+ dumps_chars s'
  end.

(** A string literal that denotes [s]. *)
Definition dumps (s : string) : string :=
  String "034" (dumps_chars s +:+ String "034" EmptyString).

End RefLib.

(** The reference library as a [PyLib]. *)
Definition ref_lib : PyLib := {|
  Path_suffix := RefLib.Path_suffix;
  lower := RefLib.lower;
  json_loads := RefLib.json_loads;
  str := RefLib.str;
|}.

(** ** The spec's reading of the transcript *)

(** The transcript as the spec words it: the segment texts in the order
    returned, with a single space between consecutive texts, built left to
    right. *)
Definition space_joined (texts : list string) : string :=
  match texts with
  | [] => EmptyString
  | first :: others => fold_left (λ acc t, acc +:+ " " +:+ t) others first
  end.

(** ** Concrete requests *)

Module Example.

(** The object [{"title": T, "content": C}] as JSON text. *)
Definition title_content (T C : string) : string :=
  "{" +:+ quoted "title" +:+ ":" +:+ RefLib.dumps T +:+ ","
      +:+ quoted "content" +:+ ":" +:+ RefLib.dumps C +:+ "}".

(** A reply of the Ollama service: its [.json()] decodes the body, and a
    body that is not JSON makes it raise requests' own decode error. *)
Definition reply (status_code : Z) (body : string) : requests.Response := {|
  requests.status_code := status_code;
  requests.text := body;
  requests.json :=
    match RefLib.json_loads body with
    | Raise (JSONDecodeError msg) => Raise (RequestsJSONDecodeError msg)
    | r => r
    end;
|}.

(** The envelope of a generation reply whose text is [response_text]. *)
Definition envelope (response_text : string) : string :=
  "{" +:+ quoted "model" +:+ ":" +:+ quoted "qwen2.5:7b" +:+ ","
      +:+ quoted "response" +:+ ":" +:+ RefLib.dumps response_text +:+ ","
      +:+ quoted "done" +:+ ":true}".

(** A server on which staging works and the recognizer hears two segments;
    the Ollama service behaves as [post] and [probe] say. *)
Definition server (post probe : outcome requests.Response) : World := {|
  OLLAMA_URL := "http://ollama:11434";
  NamedTemporaryFile := λ suffix, Return ("/tmp/tmpk3v9x2ab" +:+ suffix);
  temp_file_write := λ _, Return ();
  temp_file_flush := Return ();
  model_transcribe := λ _ _,
    Return [ {| whisper.text := "Hello " |}; {| whisper.text := "world." |} ];
  requests_post := λ _ _ _, post;
  requests_get := λ _ _, probe;
|}.

(** The same server with a full disk: writing the upload fails. *)
Definition full_disk (post probe : outcome requests.Response) : World := {|
  OLLAMA_URL := "http://ollama:11434";
  NamedTemporaryFile := λ suffix, Return ("/tmp/tmpk3v9x2ab" +:+ suffix);
  temp_file_write := λ _, Raise (OtherException "[Errno 28] No space left on device");
  temp_file_flush := Return ();
  model_transcribe := λ _ _,
    Return [ {| whisper.text := "Hello " |}; {| whisper.text := "world." |} ];
  requests_post := λ _ _ _, post;
  requests_get := λ _ _, probe;
|}.

Definition unreachable : outcome requests.Response :=
  Raise (RequestException "Connection refused").

Definition memo : UploadFile :=
  {| filename := "memo.MP3"; read := Return "ID3 audio bytes" |}.

Definition notes : UploadFile :=
  {| filename := "notes.txt"; read := Return "plain text" |}.

(** The name the example servers give the temporary file of [memo]. *)
Definition memo_temp : string := "/tmp/tmpk3v9x2ab.mp3".

(** A server whose Ollama service answers 200 with [response_text]. *)
Definition answering (response_text : string) : World :=
  server (Return (reply 200 (envelope response_text))) unreachable.

(** The decoded envelope of such an answer. *)
Definition envelope_dict (response_text : string) : gmap string pyvalue :=
  {[ "model" := PStr "qwen2.5:7b";
     "response" := PStr response_text;
     "done" := PBool true ]}.

Definition groceries : string := "# Groceries" +:+ nl +:+ nl +:+ "- milk".

(** Replies of the generation model: the object asked for, an object
    without a title, prose, and an array. *)
Definition object_text : string := title_content "Groceries" groceries.
Definition untitled_text : string :=
  "{" +:+ quoted "content" +:+ ":" +:+ RefLib.dumps groceries +:+ "}".
Definition array_text : string :=
  "[" +:+ RefLib.dumps "milk" +:+ ", " +:+ RefLib.dumps "eggs" +:+ "]".



(** A server whose recognizer cannot read the audio. *)
Definition deaf (post probe : outcome requests.Response) : World := {|
  OLLAMA_URL := "http://ollama:11434";
  NamedTemporaryFile := λ suffix, Return ("/tmp/tmpk3v9x2ab" +:+ suffix);
  temp_file_write := λ _, Return ();
  temp_file_flush := Return ();
  model_transcribe := λ _ _,
    Raise (OtherException "Invalid data found when processing input");
  requests_post := λ _ _ _, post;
  requests_get := λ _ _, probe;
|}.

(** Bodies of a reply with status 200: an envelope without a "response"
    field, one whose "response" is a number, and one that is not an object. *)
Definition bare_envelope : string := "{" +:+ quoted "done" +:+ ":true}".
Definition numeric_envelope : string := "{" +:+ quoted "response" +:+ ":5}".
Definition list_envelope : string := "[1]".

(** A file that was on disk before the request. *)
Definition monday : string := "/srv/notes/monday.md".

(** The response to [memo] when the service replies with [object_text]. *)
Definition groceries_answer : JSONResponse :=
  {| content := {[ "success" := PBool true;
                   "filename" := PStr "memo.MP3";
                   "transcription" := PStr "Hello  world.";
                   "title" := PStr "Groceries";
                   "markdown" := PStr groceries ]} |}.

End Example.

(** ** Variations and parts *)

(** The world [w] with another generation service behind [requests.post]. *)
Definition with_requests_post (w : World)
    (post : string → gmap string pyvalue → Z → outcome requests.Response) : World := {|
  OLLAMA_URL := OLLAMA_URL w;
  NamedTemporaryFile := NamedTemporaryFile w;
  temp_file_write := temp_file_write w;
  temp_file_flush := temp_file_flush w;
  model_transcribe := model_transcribe w;
  requests_post := post;
  requests_get := requests_get w;
|}.

(** The text of the prompt template before and after the transcript: the
    template instantiated with the empty transcript, cut where the
    transcript goes. *)
Definition prompt_head : string := String.substring 0 420 (prompt EmptyString).
Definition prompt_tail : string := String.substring 420 409 (prompt EmptyString).

(** ** Facts about the Python layer *)

Lemma try_except_Return {A} (a : A) catches handler :
  try_except (Return a) catches handler = Return a.
Proof. reflexivity. Qed.

Lemma try_except_caught {A} e catches (handler : exception → outcome A) :
  catches e = true → try_except (Raise e) catches handler = handler e.
Proof. intros Hc. unfold try_except. by rewrite Hc. Qed.

Lemma try_except_passed {A} e catches (handler : exception → outcome A) :
  catches e = false → try_except (Raise e) catches handler = Raise e.
Proof. intros Hc. unfold try_except. by rewrite Hc. Qed.

Lemma get_dict d key fallback :
  get (PDict d) key fallback = Return (default fallback (d !! key)).
Proof. reflexivity. Qed.

(** Only a [dict] answers [.get]. *)
Lemma get_not_dict v key fallback :
  (∀ d, v ≠ PDict d) → ∃ msg, get v key fallback = Raise (AttributeError msg).
Proof.
  intros Hv. destruct v; simpl; eauto.
  by destruct (Hv d).
Qed.

(** ** Joining the segments *)

Lemma append_cons (x : ascii) (a b : string) :
  String x a +:+ b = String x (a +:+ b).
Proof. reflexivity. Qed.

Lemma append_assoc (a b c : string) : (a +:+ b) +:+ c = a +:+ (b +:+ c).
Proof.
  induction a as [|x a IH]; [reflexivity|].
  by rewrite !append_cons, IH.
Qed.

Lemma length_append (a b : string) :
  String.length (a +:+ b) = (String.length a + String.length b)%nat.
Proof.
  induction a as [|x a IH]; [reflexivity|].
  rewrite append_cons. simpl. by rewrite IH.
Qed.

Lemma fold_space_prefix (p first : string) (others : list string) :
  fold_left (λ acc t, acc +:+ " " +:+ t) others (p +:+ first)
  = p +:+ fold_left (λ acc t, acc +:+ " " +:+ t) others first.
Proof.
  revert first. induction others as [|t others IH]; intros first; simpl.
  - reflexivity.
  - rewrite <- IH. f_equal. by rewrite !append_assoc.
Qed.

Lemma join_space_joined (texts : list string) :
  join " " texts = space_joined texts.
Proof.
  unfold join. destruct texts as [|first others]; [reflexivity|].
  revert first. induction others as [|t others IH]; intros first.
  - reflexivity.
  - change (String.concat " " (first :: t :: others))
      with (first +:+ " " +:+ String.concat " " (t :: others)).
    rewrite IH. simpl.
    rewrite <- (append_assoc first " " t), fold_space_prefix.
    by rewrite append_assoc.
Qed.

Lemma length_join_space (texts : list string) :
  String.length (join " " texts)
  = (sum_list (String.length <$> texts) + (List.length texts - 1))%nat.
Proof.
  unfold join. induction texts as [|first [|t others] IH].
  - reflexivity.
  - simpl. lia.
  - change (String.concat " " (first :: t :: others))
      with (first +:+ " " +:+ String.concat " " (t :: others)).
    rewrite !length_append, IH. simpl. lia.
Qed.

Lemma transcribe_audio_segments `{PyLib} w audio_path segments :
  model_transcribe w audio_path 5 = Return segments →
  transcribe_audio w audio_path = Return (join " " (map whisper.text segments)).
Proof. intros Hm. unfold transcribe_audio. by rewrite Hm. Qed.

(** ** The structuring adapter on a reply of the service *)

(** Runs a block one call at a time: a known outcome is substituted, the
    bind or [try] around it is evaluated. *)
Ltac run_with H := rewrite H; cbn [mbind outcome_bind mret outcome_ret try_except].
Ltac run := cbn [mbind outcome_bind mret outcome_ret try_except negb].

Section reply.
Context `{PyLib} (w : World) (transcription : string).
Context (response : requests.Response).
Context (envelope : gmap string pyvalue) (response_text : string).
Hypothesis Hpost :
  requests_post w (OLLAMA_URL w +:+ "/api/generate")
    (generate_request transcription) 120 = Return response.
Hypothesis Hstatus : requests.status_code response = 200.
Hypothesis Hjson : requests.json response = Return (PDict envelope).
Hypothesis Hresponse : envelope !! "response" = Some (PStr response_text).

(** The reply is decoded by the inner [try] of the adapter. *)
Lemma structure_with_ollama_reply :
  structure_with_ollama w transcription
  = try_except
      (try_except
         (structured_data ← json_loads response_text;
          title ← get structured_data "title" (PStr "Voice Note");
          content ← get structured_data "content" (PStr transcription);
          Return ({[ "title" := title; "content" := content ]}
                    : gmap string pyvalue))
         is_JSONDecodeError
         (λ _, Return {[ "title" := PStr "Voice Note Transcription";
                         "content" := PStr ("# Voice Note Transcription"
                                            +:+ nl +:+ nl +:+ response_text) ]}))
      is_RequestException
      (λ e, Raise (HTTPException 503 ("Ollama service unavailable: " +:+ str e))).
Proof.
  unfold structure_with_ollama.
  run_with Hpost. rewrite Hstatus. change (200 =? 200)%Z with true. run.
  run_with Hjson. rewrite get_dict, Hresponse. run.
  reflexivity.
Qed.

(** A reply that decodes to an object: its fields, or the defaults. *)
Lemma structure_with_ollama_object (d : gmap string pyvalue) :
  json_loads response_text = Return (PDict d) →
  structure_with_ollama w transcription
  = Return {[ "title" := default (PStr "Voice Note") (d !! "title");
              "content" := default (PStr transcription) (d !! "content") ]}.
Proof.
  intros Hloads. rewrite structure_with_ollama_reply.
  run_with Hloads. by rewrite !get_dict.
Qed.


(** A reply that decodes to something else than an object: [.get] faults,
    and neither [except] clause of the adapter is for that fault. *)
Lemma structure_with_ollama_not_object (v : pyvalue) :
  json_loads response_text = Return v →
  (∀ d, v ≠ PDict d) →
  ∃ msg, structure_with_ollama w transcription = Raise (AttributeError msg).
Proof.
  intros Hloads Hv. rewrite structure_with_ollama_reply.
  destruct (get_not_dict v "title" (PStr "Voice Note") Hv) as [msg Hget].
  exists msg. run_with Hloads. by run_with Hget.
Qed.

(** C9: when the reply text decodes to a JSON object, the adapter returns
    the title "Voice Note" if the object has no "title" field and the
    original transcript as content if it has no "content" field; a field
    that is present is returned as it is. *)
Theorem C9_absent_fields_take_defaults (d : gmap string pyvalue) :
  json_loads response_text = Return (PDict d) →
  ∃ structured : gmap string pyvalue,
    structure_with_ollama w transcription = Return structured
    ∧ (d !! "title" = None → structured !! "title" = Some (PStr "Voice Note"))
    ∧ (d !! "content" = None → structured !! "content" = Some (PStr transcription))
    ∧ (∀ v, d !! "title" = Some v → structured !! "title" = Some v)
    ∧ (∀ v, d !! "content" = Some v → structured !! "content" = Some v).
Proof.
  intros Hloads. eexists. split; [by apply structure_with_ollama_object|].
  repeat split.
  - intros Hd. by rewrite lookup_insert_eq, Hd.
  - intros Hd. rewrite lookup_insert_ne by done.
    by rewrite lookup_singleton_eq, Hd.
  - intros v Hd. by rewrite lookup_insert_eq, Hd.
  - intros v Hd. rewrite lookup_insert_ne by done.
    by rewrite lookup_singleton_eq, Hd.
Qed.

End reply.

(** ** The handler's exits *)

(** The generic [except Exception] of the handler never lets an
    [UnboundLocalError] out of the [try] block. *)
Lemma generic_catch_not_unbound `{PyLib} {A} (r : outcome A) variable :
  try_except r is_Exception (λ e, Raise (HTTPException 500 (str e)))
  ≠ Raise (UnboundLocalError variable).
Proof. destruct r as [a|[]]; discriminate. Qed.

(** Staging fails exactly when reading, writing or flushing raises. *)
Lemma stage_Raise (w : World) (file : UploadFile) (e : exception) :
  stage w file = Raise e ↔
    read file = Raise e
    ∨ ∃ content, read file = Return content
        ∧ (temp_file_write w content = Raise e
           ∨ (temp_file_write w content = Return () ∧ temp_file_flush w = Raise e)).
Proof.
  unfold stage. destruct (read file) as [content|e1]; run.
  - destruct (temp_file_write w content) as [[]|e2] eqn:Hw; run.
    + split; [intros Hf; right; eauto 6|].
      intros [?|(c&[= <-]&[Hw'|[_ ?]])]; [done| |done].
      rewrite Hw in Hw'. discriminate.
    + split; [intros [= <-]; right; eauto 6|].
      intros [?|(c&[= <-]&[Hw'|[Hw' _]])]; [done| |];
        rewrite Hw in Hw'; congruence.
  - split; [intros [= <-]; by left|].
    intros [[= <-]|(c&?&_)]; [done|discriminate].
Qed.

(** Unlinking the file that was just created. *)
Lemma unlink_created (name : string) (fs : gset string) :
  ({[name]} ∪ fs) ∖ {[name]} = fs ∖ {[name]}.
Proof.
  apply set_eq. intros x.
  rewrite !elem_of_difference, elem_of_union, elem_of_singleton. tauto.
Qed.

Section accepted.
Context `{PyLib} (w : World) (file : UploadFile) (fs : gset string).
Context (temp_file_name : string).
Hypothesis Haccepted : lower (Path_suffix (filename file)) ∈ allowed_extensions.
Hypothesis Htemp :
  NamedTemporaryFile w (lower (Path_suffix (filename file))) = Return temp_file_name.

(** Once the temporary file exists, the handler is its [try] block under
    the generic catch, followed by the [finally] block. *)
Lemma transcribe_accepted :
  transcribe w file fs
  = let '(temp_path, r) := transcribe_try w file temp_file_name in
    let '(final, fs') := cleanup temp_path ({[temp_file_name]} ∪ fs) in
    (try_finally
       (try_except r is_Exception (λ e, Raise (HTTPException 500 (str e))))
       final, fs').
Proof.
  unfold transcribe. rewrite decide_False by (by intros Hn). by rewrite Htemp.
Qed.

(** C3: when staging raises before [temp_path] is assigned, the [finally]
    block faults on the unassigned variable: the handler ends in an
    [UnboundLocalError] and the temporary file stays on disk.  When
    staging completed, the [finally] block does not fault and the file is
    removed. *)
Theorem C3_cleanup_faults_when_staging_fails :
  (∀ e, stage w file = Raise e →
        transcribe w file fs
        = (Raise (UnboundLocalError "temp_path"), {[temp_file_name]} ∪ fs))
  ∧ (stage w file = Return () →
       (temp_file_name ∉ snd (transcribe w file fs))
       ∧ (∀ variable,
            fst (transcribe w file fs) ≠ Raise (UnboundLocalError variable))).
Proof.
  split.
  - intros e Hstage. rewrite transcribe_accepted.
    unfold transcribe_try. by rewrite Hstage.
  - intros Hstage. rewrite transcribe_accepted.
    unfold transcribe_try, cleanup. rewrite Hstage.
    rewrite decide_True
      by (apply elem_of_union; left; by apply elem_of_singleton).
    simpl. split.
    + rewrite elem_of_difference, elem_of_singleton. by intros [_ Hn].
    + intros variable. apply generic_catch_not_unbound.
Qed.

End accepted.

(** C7: a filename whose lowercase suffix is outside the allow-list ends the
    request with an [HTTPException] of status 400 whose message names the
    suffix and the allowed ones; the handler does not consult the outside
    at all (no temporary file is asked for) and the disk is unchanged. *)
Theorem C7_unlisted_extension_rejected `{PyLib}
    (w : World) (file : UploadFile) (fs : gset string) :
  let file_ext := lower (Path_suffix (filename file)) in
  let detail := "Unsupported file type '" +:+ file_ext
                +:+ "'. Allowed: .mp3, .wav, .m4a, .ogg, .flac, .aac" in
  file_ext ∉ allowed_extensions →
  transcribe w file fs = (Raise (HTTPException 400 detail), fs)
  ∧ respond (fst (transcribe w file fs))
    = Some {| status := 400; body := PDict {[ "detail" := PStr detail ]} |}
  ∧ ∀ w', transcribe w' file fs = transcribe w file fs.
Proof.
  intros file_ext detail Hext.
  assert (∀ w0, transcribe w0 file fs = (Raise (HTTPException 400 detail), fs))
    as Hall.
  { intros w0. unfold transcribe. fold file_ext. by rewrite decide_True. }
  rewrite !Hall. split; [done|]. split; [done|]. intros w'. apply Hall.
Qed.

Section staged.
Context `{PyLib} (w : World) (file : UploadFile) (fs : gset string).
Context (temp_file_name transcription : string).
Hypothesis Haccepted : lower (Path_suffix (filename file)) ∈ allowed_extensions.
Hypothesis Htemp :
  NamedTemporaryFile w (lower (Path_suffix (filename file))) = Return temp_file_name.
Hypothesis Hstaged : stage w file = Return ().
Hypothesis Htranscribed : transcribe_audio w temp_file_name = Return transcription.

(** With the upload staged and transcribed, the request is decided by the
    structuring step, and the temporary file is gone afterwards. *)
Lemma transcribe_staged :
  transcribe w file fs
  = (try_except
       (structured ← structure_with_ollama w transcription;
        title ← getitem structured "title";
        markdown ← getitem structured "content";
        Return {| content :=
                    {[ "success" := PBool true;
                       "filename" := PStr (filename file);
                       "transcription" := PStr transcription;
                       "title" := title;
                       "markdown" := markdown ]} |})
       is_Exception
       (λ e, Raise (HTTPException 500 (str e))),
     fs ∖ {[temp_file_name]}).
Proof.
  rewrite (transcribe_accepted w file fs temp_file_name Haccepted Htemp).
  unfold transcribe_try, cleanup. rewrite Hstaged.
  run_with Htranscribed.
  rewrite decide_True
    by (apply elem_of_union; left; by apply elem_of_singleton).
  by rewrite unlink_created.
Qed.

Lemma transcribe_structured (structured : gmap string pyvalue) title markdown :
  structure_with_ollama w transcription = Return structured →
  structured !! "title" = Some title →
  structured !! "content" = Some markdown →
  transcribe w file fs
  = (Return {| content :=
                 {[ "success" := PBool true;
                    "filename" := PStr (filename file);
                    "transcription" := PStr transcription;
                    "title" := title;
                    "markdown" := markdown ]} |},
     fs ∖ {[temp_file_name]}).
Proof.
  intros Hs Ht Hm. rewrite transcribe_staged. run_with Hs.
  unfold getitem. rewrite Ht, Hm. reflexivity.
Qed.

Lemma transcribe_structuring_raised (e : exception) :
  structure_with_ollama w transcription = Raise e →
  is_Exception e = true →
  transcribe w file fs
  = (Raise (HTTPException 500 (str e)), fs ∖ {[temp_file_name]}).
Proof.
  intros Hs He. rewrite transcribe_staged. run_with Hs. by rewrite He.
Qed.

(** C1 (the code departs from the spec): when the generation request fails at
    the network level, the adapter raises an [HTTPException] of status 503,
    but the handler's generic [except Exception] catches it and raises one
    of status 500 carrying its text: the caller receives status 500, not
    503.  The response has no "markdown" field. *)
Theorem C1_unreachable_service_answers_500 (e : exception) :
  requests_post w (OLLAMA_URL w +:+ "/api/generate")
    (generate_request transcription) 120 = Raise e →
  is_RequestException e = true →
  let unavailable :=
    HTTPException 503 ("Ollama service unavailable: " +:+ str e) in
  structure_with_ollama w transcription = Raise unavailable
  ∧ fst (transcribe w file fs) = Raise (HTTPException 500 (str unavailable))
  ∧ ∃ response,
      respond (fst (transcribe w file fs)) = Some response
      ∧ status response = 500
      ∧ field response "markdown" = None.
Proof.
  intros Hpost He unavailable.
  assert (structure_with_ollama w transcription = Raise unavailable) as Hs.
  { unfold structure_with_ollama. run_with Hpost. by rewrite He. }
  rewrite (transcribe_structuring_raised unavailable Hs eq_refl).
  split; [done|]. split; [done|].
  eexists. split; [reflexivity|]. split; reflexivity.
Qed.

Section replied.
Context (response : requests.Response).
Context (envelope : gmap string pyvalue) (response_text : string).
Hypothesis Hpost :
  requests_post w (OLLAMA_URL w +:+ "/api/generate")
    (generate_request transcription) 120 = Return response.
Hypothesis Hstatus : requests.status_code response = 200.
Hypothesis Hjson : requests.json response = Return (PDict envelope).
Hypothesis Hresponse : envelope !! "response" = Some (PStr response_text).



(** C10: when the service answers 200 and the text in the envelope's
    "response" field decodes to a JSON value that is not an object, the
    field lookup faults with an [AttributeError], which only the handler's
    generic catch intercepts: the request fails with status 500 and the
    fallback document is not produced. *)
Theorem C10_non_object_reply_fails_with_500 (v : pyvalue) :
  json_loads response_text = Return v →
  (∀ d, v ≠ PDict d) →
  ∃ msg,
    structure_with_ollama w transcription = Raise (AttributeError msg)
    ∧ transcribe w file fs
      = (Raise (HTTPException 500 (str (AttributeError msg))),
         fs ∖ {[temp_file_name]})
    ∧ respond (fst (transcribe w file fs))
      = Some {| status := 500;
                body := PDict {[ "detail" := PStr (str (AttributeError msg)) ]} |}.
Proof.
  intros Hloads Hv.
  destruct (structure_with_ollama_not_object w transcription response envelope
              response_text Hpost Hstatus Hjson Hresponse v Hloads Hv)
    as [msg Hs].
  exists msg. split; [exact Hs|].
  rewrite (transcribe_structuring_raised _ Hs eq_refl).
  split; reflexivity.
Qed.

(** A text on which [json.loads] raises an [Exception] that is neither a
    [JSONDecodeError] nor a [RequestException] (a [RecursionError] on a text
    nested too deep, say): no clause of the adapter is for it, and the
    handler's generic catch answers 500. *)
Lemma undecodable_reply_other_exception (e : exception) :
  json_loads response_text = Raise e →
  is_JSONDecodeError e = false →
  is_RequestException e = false →
  is_Exception e = true →
  structure_with_ollama w transcription = Raise e
  ∧ transcribe w file fs
    = (Raise (HTTPException 500 (str e)), fs ∖ {[temp_file_name]}).
Proof.
  intros Hloads Hd Hr He.
  assert (structure_with_ollama w transcription = Raise e) as Hs.
  { rewrite (structure_with_ollama_reply w transcription response envelope
               response_text Hpost Hstatus Hjson Hresponse).
    run_with Hloads. rewrite Hd. run. by rewrite Hr. }
  split; [exact Hs|]. by apply transcribe_structuring_raised.
Qed.

End replied.
End staged.

(** ** The recognizer adapter and the health reporter *)

(** C6: the transcript is the segment texts in the order returned, joined
    with a single space, nothing trimmed and no segment dropped (its length
    is the sum of the lengths plus one per gap); the segments "Hello " and
    "world." give "Hello  world." with two spaces. *)
Theorem C6_transcript_is_space_joined `{PyLib}
    (w : World) (audio_path : string) (segments : list whisper.Segment) :
  model_transcribe w audio_path 5 = Return segments →
  let texts := map whisper.text segments in
  transcribe_audio w audio_path = Return (space_joined texts)
  ∧ String.length (space_joined texts)
    = (sum_list (String.length <$> texts) + (List.length texts - 1))%nat
  ∧ (texts = ["Hello "; "world."] →
     transcribe_audio w audio_path = Return "Hello  world.").
Proof.
  intros Hm texts.
  rewrite (transcribe_audio_segments w audio_path segments Hm).
  fold texts. rewrite <- join_space_joined. split; [done|].
  split; [apply length_join_space|].
  intros ->. reflexivity.
Qed.

(** C8: [health_check] returns for every outcome of the probe, with status
    200 and whisper "loaded"; ollama is "healthy" when the probe answered
    200, "unhealthy" when it answered another status, and "unavailable"
    when the probe raised anything. *)
Theorem C8_health_check_never_raises (w : World) :
  ∃ ollama_status : string,
    health_check w
    = Return {[ "api" := PStr "healthy";
                "whisper" := PStr "loaded";
                "ollama" := PStr ollama_status ]}
    ∧ status <$> respond_dict (health_check w) = Some 200
    ∧ (∀ response,
         requests_get w (OLLAMA_URL w +:+ "/api/tags") 5 = Return response →
         requests.status_code response = 200 → ollama_status = "healthy")
    ∧ (∀ response,
         requests_get w (OLLAMA_URL w +:+ "/api/tags") 5 = Return response →
         requests.status_code response ≠ 200 → ollama_status = "unhealthy")
    ∧ (∀ e,
         requests_get w (OLLAMA_URL w +:+ "/api/tags") 5 = Raise e →
         ollama_status = "unavailable").
Proof.
  unfold health_check.
  destruct (requests_get w (OLLAMA_URL w +:+ "/api/tags") 5)
    as [response|e]; run.
  - destruct (Z.eqb_spec (requests.status_code response) 200) as [Heq|Hne].
    + exists "healthy". repeat split; try done.
      intros r [= <-] Hr. by destruct Hr.
    + exists "unhealthy". repeat split; try done.
      intros r [= <-] Hr. by destruct Hne.
  - exists "unavailable". repeat split; done.
Qed.

(** ** The reference decoder reads back what [dumps] writes *)

Section decoder.
Import RefLib.

Ltac char_step := cbn [skip_ws is_ws Ascii.eqb Bool.eqb orb].

Lemma string_body_dumps_char (c : ascii) (tail : string) :
  string_body (dumps_char c +:+ tail) = scan_map (String c) (string_body tail).
Proof. destruct c as [[] [] [] [] [] [] [] []]; reflexivity. Qed.

(** A literal written by [dumps_chars] is read back up to its closing
    quote, whatever bytes it holds. *)
Lemma string_body_dumps_chars (s rest : string) :
  string_body (dumps_chars s +:+ String "034" rest) = Parsed s rest.
Proof.
  induction s as [|c s IH]; [reflexivity|].
  change (dumps_chars (String c s)) with (dumps_char c +:+ dumps_chars s).
  by rewrite append_assoc, string_body_dumps_char, IH.
Qed.

Lemma dumps_append (s rest : string) :
  dumps s +:+ rest = String "034" (dumps_chars s +:+ String "034" rest).
Proof. unfold dumps. by rewrite append_cons, append_assoc. Qed.

Lemma value_string (depth fuel : nat) (s rest : string) :
  value depth (S fuel) (String "034" (dumps_chars s +:+ String "034" rest))
  = Parsed (PStr s) rest.
Proof. cbn [value Ascii.eqb Bool.eqb]. by rewrite string_body_dumps_chars. Qed.

Lemma value_true (depth fuel : nat) (rest : string) :
  value depth (S fuel) (String "t" (String "r" (String "u" (String "e" rest))))
  = Parsed (PBool true) rest.
Proof. reflexivity. Qed.

(** One member of an object, once its value is read: the loop closes the
    object at a brace and goes on after a comma. *)
Lemma members_member (depth fuel : nat) (key text after : string) (v : pyvalue)
    (acc : gmap string pyvalue) (c : ascii) :
  skip_ws text = text →
  value depth fuel text = Parsed v (String c after) →
  is_ws c = false →
  members depth (S fuel)
    (String "034" (dumps_chars key +:+ String "034" (String ":" text))) acc
  = if Ascii.eqb c "}" then Parsed (PDict (<[key := v]> acc)) after
    else if Ascii.eqb c ","
    then members depth fuel (skip_ws after) (<[key := v]> acc)
    else Malformed.
Proof.
  intros Hskip Hv Hc. cbn [members Ascii.eqb Bool.eqb].
  rewrite string_body_dumps_chars. char_step.
  rewrite Hskip, Hv. cbn [skip_ws]. by rewrite Hc.
Qed.

(** The fuel of [json_loads] is enough for a value that needs [k], when
    the text has as many characters. *)
Lemma json_loads_value (s : string) (v : pyvalue) (k : nat) :
  skip_ws s = s →
  (k ≤ String.length s)%nat →
  (∀ fuel, value recursion_limit (S (k + fuel)) s = Parsed v EmptyString) →
  json_loads s = Return v.
Proof.
  intros Hskip Hk Hv. unfold json_loads, json_loads_within. rewrite Hskip.
  replace (2 * String.length s + 2)%nat
    with (S (k + (2 * String.length s + 1 - k)))%nat by lia.
  by rewrite Hv.
Qed.

Lemma title_content_chars (T C : string) :
  Example.title_content T C
  = String "{" (String "034" (dumps_chars "title" +:+ String "034"
      (String ":" (String "034" (dumps_chars T +:+ String "034"
         (String "," (String "034" (dumps_chars "content" +:+ String "034"
            (String ":" (String "034" (dumps_chars C +:+ String "034"
               (String "}" EmptyString)))))))))))).
Proof. unfold Example.title_content. by rewrite !dumps_append. Qed.

(** Whatever the title and the content, the text of the object decodes to
    the object. *)
Lemma loads_title_content (T C : string) :
  json_loads (Example.title_content T C)
  = Return (PDict {[ "title" := PStr T; "content" := PStr C ]}).
Proof.
  rewrite title_content_chars. apply (json_loads_value _ _ 3).
  - reflexivity.
  - cbn [String.length]. rewrite length_append. cbn [String.length]. lia.
  - intros fuel. change recursion_limit with (S 998).
    cbn [Nat.add value]. char_step.
    erewrite (members_member _ _ "title" _ _ (PStr T) ∅ ",");
      [|reflexivity|apply value_string|reflexivity].
    char_step.
    erewrite (members_member _ _ "content" _ _ (PStr C) _ "}");
      [|reflexivity|apply value_string|reflexivity].
    char_step.
    rewrite insert_insert_ne by done. by rewrite insert_empty.
Qed.

Lemma envelope_chars (response_text : string) :
  Example.envelope response_text
  = String "{" (String "034" (dumps_chars "model" +:+ String "034"
      (String ":" (String "034" (dumps_chars "qwen2.5:7b" +:+ String "034"
         (String "," (String "034" (dumps_chars "response" +:+ String "034"
            (String ":" (String "034" (dumps_chars response_text +:+ String "034"
               (String "," (String "034" (dumps_chars "done" +:+ String "034"
                  (String ":" (String "t" (String "r" (String "u" (String "e"
                     (String "}" EmptyString)))))))))))))))))))).
Proof. unfold Example.envelope. by rewrite !dumps_append. Qed.

(** Whatever the generated text, the envelope decodes to its three fields. *)
Lemma loads_envelope (response_text : string) :
  json_loads (Example.envelope response_text)
  = Return (PDict (Example.envelope_dict response_text)).
Proof.
  rewrite envelope_chars. apply (json_loads_value _ _ 4).
  - reflexivity.
  - cbn [String.length]. rewrite length_append. cbn [String.length]. lia.
  - intros fuel. change recursion_limit with (S 998).
    cbn [Nat.add value]. char_step.
    erewrite (members_member _ _ "model" _ _ (PStr "qwen2.5:7b") ∅ ",");
      [|reflexivity|apply value_string|reflexivity].
    char_step.
    erewrite (members_member _ _ "response" _ _ (PStr response_text) _ ",");
      [|reflexivity|apply value_string|reflexivity].
    char_step.
    erewrite (members_member _ _ "done" _ _ (PBool true) _ "}");
      [|reflexivity|apply value_true|reflexivity].
    char_step. unfold Example.envelope_dict.
    rewrite (insert_insert_ne _ "response" "model") by done.
    rewrite (insert_insert_ne _ "done" "model") by done.
    rewrite (insert_insert_ne _ "done" "response") by done.
    by rewrite insert_empty.
Qed.

End decoder.

(** ** Concrete requests on the reference library *)


Section reference.
#[local] Existing Instance ref_lib.

(** With the reference library the round trip needs no assumption on the
    decoder: whatever title and content the service wrote into its reply,
    the example server answers with exactly them. *)
Lemma reference_round_trip (T C : string) :
  transcribe (Example.answering (Example.title_content T C)) Example.memo ∅
  = (Return {| content :=
                 {[ "success" := PBool true;
                    "filename" := PStr "memo.MP3";
                    "transcription" := PStr "Hello  world.";
                    "title" := PStr T;
                    "markdown" := PStr C ]} |},
     ∅ ∖ {[Example.memo_temp]}).
Proof.
  set (text := Example.title_content T C).
  assert (structure_with_ollama (Example.answering text) "Hello  world."
          = Return {[ "title" := PStr T; "content" := PStr C ]}) as Hs.
  { rewrite (structure_with_ollama_object (Example.answering text)
               "Hello  world." (Example.reply 200 (Example.envelope text))
               (Example.envelope_dict text) text eq_refl eq_refl)
        with (d := {[ "title" := PStr T; "content" := PStr C ]});
      [reflexivity| |reflexivity|apply loads_title_content].
    unfold Example.reply. cbn [requests.json]. by rewrite loads_envelope. }
  by apply (transcribe_structured (Example.answering text) Example.memo ∅
              Example.memo_temp "Hello  world." ltac:(compute_done)
              eq_refl eq_refl eq_refl _ _ _ Hs).
Qed.

(** C2 (the code departs from the spec): a valid upload on a server
    whose disk is full.  Validation passes and the temporary file is
    created; writing raises before [temp_path] is assigned; the [finally]
    block faults, and the temporary file is still on disk when the handler
    has returned control. *)
Theorem C2_failed_staging_leaves_temp_file :
  let w := Example.full_disk Example.unreachable Example.unreachable in
  let after := transcribe w Example.memo ∅ in
  lower (Path_suffix (filename Example.memo)) ∈ allowed_extensions
  ∧ fst after = Raise (UnboundLocalError "temp_path")
  ∧ Example.memo_temp ∈ snd after.
Proof. repeat split; compute_done. Qed.

(** The unreachable service on the example server: status 500. *)
Lemma C1_unreachable_service_answers_500_witness :
  fst (transcribe (Example.server Example.unreachable Example.unreachable)
         Example.memo ∅)
  = Raise (HTTPException 500
             "503: Ollama service unavailable: Connection refused").
Proof.
  refine (proj1 (proj2 (C1_unreachable_service_answers_500
    (Example.server Example.unreachable Example.unreachable) Example.memo ∅
    Example.memo_temp "Hello  world." _ _ _ _
    (RequestException "Connection refused") _ _))); compute_done.
Defined.

(** The full disk leaves the file behind; the working server removes it. *)
Lemma C3_cleanup_faults_when_staging_fails_witness :
  transcribe (Example.full_disk Example.unreachable Example.unreachable)
    Example.memo ∅
  = (Raise (UnboundLocalError "temp_path"), {[Example.memo_temp]} ∪ ∅)
  ∧ Example.memo_temp
    ∉ snd (transcribe (Example.server Example.unreachable Example.unreachable)
             Example.memo ∅).
Proof.
  split.
  - refine (proj1 (C3_cleanup_faults_when_staging_fails
      (Example.full_disk Example.unreachable Example.unreachable)
      Example.memo ∅ Example.memo_temp _ _)
      (OtherException "[Errno 28] No space left on device") _); compute_done.
  - refine (proj1 (proj2 (C3_cleanup_faults_when_staging_fails
      (Example.server Example.unreachable Example.unreachable)
      Example.memo ∅ Example.memo_temp _ _) _)); compute_done.
Defined.




(** The segments "Hello " and "world.". *)
Lemma C6_transcript_is_space_joined_witness :
  transcribe_audio (Example.server Example.unreachable Example.unreachable)
    Example.memo_temp
  = Return "Hello  world.".
Proof.
  refine (proj2 (proj2 (C6_transcript_is_space_joined
    (Example.server Example.unreachable Example.unreachable) Example.memo_temp
    [ {| whisper.text := "Hello " |}; {| whisper.text := "world." |} ] _)) _);
    compute_done.
Defined.

(** The upload [notes.txt]. *)
Lemma C7_unlisted_extension_rejected_witness :
  transcribe (Example.server Example.unreachable Example.unreachable)
    Example.notes ∅
  = (Raise (HTTPException 400
       "Unsupported file type '.txt'. Allowed: .mp3, .wav, .m4a, .ogg, .flac, .aac"),
     ∅).
Proof.
  refine (proj1 (C7_unlisted_extension_rejected
    (Example.server Example.unreachable Example.unreachable)
    Example.notes ∅ _)); compute_done.
Defined.

(** The reply [{"content":"# Groceries\n\n- milk"}]: no title. *)
Lemma C9_absent_fields_take_defaults_witness :
  ∃ structured : gmap string pyvalue,
    structure_with_ollama (Example.answering Example.untitled_text)
      "Hello  world." = Return structured
    ∧ structured !! "title" = Some (PStr "Voice Note")
    ∧ structured !! "content" = Some (PStr Example.groceries).
Proof.
  unshelve epose proof (C9_absent_fields_take_defaults (H := ref_lib)
    (Example.answering Example.untitled_text) "Hello  world."
    (Example.reply 200 (Example.envelope Example.untitled_text))
    (Example.envelope_dict Example.untitled_text) Example.untitled_text
    _ _ _ _ ({[ "content" := PStr Example.groceries ]}) _)
    as (structured & Hs & Htitle & _ & _ & Hcontent); try compute_done.
  exists structured. split; [exact Hs|]. split.
  - apply Htitle. compute_done.
  - apply Hcontent. compute_done.
Defined.

(** The reply [["milk", "eggs"]]. *)
Lemma C10_non_object_reply_fails_with_500_witness :
  ∃ msg,
    structure_with_ollama (Example.answering Example.array_text)
      "Hello  world." = Raise (AttributeError msg)
    ∧ transcribe (Example.answering Example.array_text) Example.memo ∅
      = (Raise (HTTPException 500 (str (AttributeError msg))),
         ∅ ∖ {[Example.memo_temp]})
    ∧ respond (fst (transcribe (Example.answering Example.array_text)
                      Example.memo ∅))
      = Some {| status := 500;
                body := PDict {[ "detail" := PStr (str (AttributeError msg)) ]} |}.
Proof.
  refine (C10_non_object_reply_fails_with_500
    (Example.answering Example.array_text) Example.memo ∅
    Example.memo_temp "Hello  world." _ _ _ _
    (Example.reply 200 (Example.envelope Example.array_text))
    (Example.envelope_dict Example.array_text) Example.array_text _ _ _ _
    (PList [PStr "milk"; PStr "eggs"]) _ _);
    first [ by intros d | compute_done ].
Defined.

End reference.

(** ** Reading outcomes backwards *)

Lemma bind_Return_inv {A B} (m : outcome A) (k : A → outcome B) (b : B) :
  m ≫= k = Return b → ∃ a, m = Return a ∧ k a = Return b.
Proof. destruct m as [a|e]; [eauto|discriminate]. Qed.

Lemma try_except_Return_inv {A} (body : outcome A) catches handler (a : A) :
  try_except body catches handler = Return a →
  body = Return a
  ∨ ∃ e, body = Raise e ∧ catches e = true ∧ handler e = Return a.
Proof.
  destruct body as [a'|e]; simpl; [by left|].
  destruct (catches e) eqn:Hc; [|discriminate]. right. eauto.
Qed.

Lemma getitem_Return_inv (d : gmap string pyvalue) key v :
  getitem d key = Return v → d !! key = Some v.
Proof. unfold getitem. destruct (d !! key); congruence. Qed.

(** Right cancellation for string concatenation. *)
Lemma append_inj_r (a b c : string) : a +:+ c = b +:+ c → a = b.
Proof.
  revert b. induction a as [|x a IH]; intros [|y b] Heq.
  - reflexivity.
  - apply (f_equal String.length) in Heq.
    rewrite !length_append in Heq. simpl in Heq. lia.
  - apply (f_equal String.length) in Heq.
    rewrite !length_append in Heq. simpl in Heq. lia.
  - rewrite !append_cons in Heq. injection Heq as -> Heq.
    f_equal. by apply IH.
Qed.

(** ** The prompt *)

(** X13: the prompt is the fixed template with the transcript spliced in
    verbatim at one place, so its length is that of the transcript plus
    829 and two transcripts never give the same prompt. *)
Theorem X13_prompt_embeds_transcript_verbatim :
  (∀ transcription,
     prompt transcription = prompt_head +:+ transcription +:+ prompt_tail)
  ∧ (∀ transcription,
       String.length (prompt transcription)
       = (String.length transcription + 829)%nat)
  ∧ (∀ t1 t2, prompt t1 = prompt t2 → t1 = t2).
Proof.
  assert (∀ t, prompt t = prompt_head +:+ t +:+ prompt_tail) as Hsplice
    by reflexivity.
  split; [exact Hsplice|]. split.
  - intros t. rewrite Hsplice, !length_append.
    change (String.length prompt_head) with 420%nat.
    change (String.length prompt_tail) with 409%nat. lia.
  - intros t1 t2. rewrite !Hsplice. intros Heq.
    apply String.app_inj in Heq. by apply append_inj_r in Heq.
Qed.

(** ** Every exit of the structuring adapter *)

Section adapter.
Context `{PyLib} (w : World) (transcription : string).

(** X7: whenever the adapter returns, its result is a dict with exactly
    the keys "title" and "content"; the handler's [structured["title"]]
    and [structured["content"]] therefore never raise [KeyError]. *)
Theorem X7_adapter_result_has_title_and_content (structured : gmap string pyvalue) :
  structure_with_ollama w transcription = Return structured →
  ∃ title content,
    structured = {[ "title" := title; "content" := content ]}
    ∧ getitem structured "title" = Return title
    ∧ getitem structured "content" = Return content.
Proof.
  unfold structure_with_ollama. intros Hs.
  apply try_except_Return_inv in Hs as [Hs|(e & _ & _ & Hs)]; [|discriminate].
  apply bind_Return_inv in Hs as (response & _ & Hs).
  destruct (negb _); [discriminate|].
  apply bind_Return_inv in Hs as (result & _ & Hs).
  apply bind_Return_inv in Hs as (response_text & _ & Hs).
  destruct response_text as [| | | |response_text| |]; try discriminate.
  apply try_except_Return_inv in Hs as [Hs|(e & _ & _ & Hs)].
  - apply bind_Return_inv in Hs as (structured_data & _ & Hs).
    apply bind_Return_inv in Hs as (title & _ & Hs).
    apply bind_Return_inv in Hs as (content & _ & [= <-]).
    exists title, content. by repeat split.
  - injection Hs as <-. eexists _, _. by repeat split.
Qed.

Section answered.
Context (response : requests.Response).
Hypothesis Hpost :
  requests_post w (OLLAMA_URL w +:+ "/api/generate")
    (generate_request transcription) 120 = Return response.

(** X2 (adapter part) is used by the handler below: a reply whose status
    is not 200 is an error carrying the reply's body text. *)
Lemma structure_with_ollama_failed_status :
  requests.status_code response ≠ 200 →
  structure_with_ollama w transcription
  = Raise (HTTPException 500
             ("Ollama request failed: " +:+ requests.text response)).
Proof.
  intros Hstatus. unfold structure_with_ollama. run_with Hpost.
  destruct (Z.eqb_spec (requests.status_code response) 200); [done|].
  reflexivity.
Qed.

Hypothesis Hstatus : requests.status_code response = 200.

(** X3: a reply with status 200 whose body [Response.json] cannot decode.
    When the decoder's exception is a [RequestException] (as requests' own
    [JSONDecodeError] is) the adapter reports the service as unavailable
    with status 503, although it answered; any other exception leaves the
    adapter as it is. *)
Theorem X3_undecodable_envelope_counts_as_unavailable (e : exception) :
  requests.json response = Raise e →
  (is_RequestException e = true →
   structure_with_ollama w transcription
   = Raise (HTTPException 503 ("Ollama service unavailable: " +:+ str e)))
  ∧ (is_RequestException e = false →
     structure_with_ollama w transcription = Raise e).
Proof.
  intros Hjson. unfold structure_with_ollama. run_with Hpost.
  rewrite Hstatus. change (200 =? 200)%Z with true. run.
  run_with Hjson. split; intros ->; reflexivity.
Qed.

(** X6: a reply with status 200 whose body decodes to something else than
    an object (an array, a string, a number, null): [result.get] faults
    with an [AttributeError], which no clause of the adapter catches. *)
Theorem X6_non_object_envelope_faults (result : pyvalue) :
  requests.json response = Return result →
  (∀ d, result ≠ PDict d) →
  ∃ msg, structure_with_ollama w transcription = Raise (AttributeError msg).
Proof.
  intros Hjson Hresult.
  destruct (get_not_dict result "response" (PStr EmptyString) Hresult)
    as [msg Hget].
  exists msg. unfold structure_with_ollama. run_with Hpost.
  rewrite Hstatus. change (200 =? 200)%Z with true. run.
  run_with Hjson. by run_with Hget.
Qed.

Section enveloped.
Context (envelope : gmap string pyvalue).
Hypothesis Hjson : requests.json response = Return (PDict envelope).

(** X4: an envelope without a "response" field is read as the empty
    text.  [json.loads] rejects the empty text, so the adapter returns the
    fallback document with nothing under its heading. *)
Theorem X4_missing_response_field_is_empty_text (e : exception) :
  envelope !! "response" = None →
  json_loads EmptyString = Raise e →
  is_JSONDecodeError e = true →
  structure_with_ollama w transcription
  = Return {[ "title" := PStr "Voice Note Transcription";
              "content" := PStr ("# Voice Note Transcription" +:+ nl +:+ nl) ]}.
Proof.
  intros Hmissing Hloads He. unfold structure_with_ollama. run_with Hpost.
  rewrite Hstatus. change (200 =? 200)%Z with true. run.
  run_with Hjson. rewrite get_dict, Hmissing. simpl default. run.
  run_with Hloads. by rewrite He.
Qed.

(** X5: an envelope whose "response" field is not a string (a number, null,
    an object, ...): [json.loads] faults with a [TypeError] before any
    decoding; the fallback for undecodable text does not apply. *)
Theorem X5_non_string_response_field_faults (v : pyvalue) :
  envelope !! "response" = Some v →
  (∀ s, v ≠ PStr s) →
  ∃ msg, structure_with_ollama w transcription = Raise (TypeError msg).
Proof.
  intros Hv Hnot. unfold structure_with_ollama. run_with Hpost.
  rewrite Hstatus. change (200 =? 200)%Z with true. run.
  run_with Hjson. rewrite get_dict, Hv. simpl default. run.
  destruct v; try (eexists; reflexivity). by destruct (Hnot s).
Qed.

End enveloped.
End answered.
End adapter.

(** ** Every exit of the handler *)

Section exits.
Context `{PyLib} (w : World) (file : UploadFile) (fs : gset string).

Lemma transcribe_rejected :
  lower (Path_suffix (filename file)) ∉ allowed_extensions →
  transcribe w file fs
  = (Raise (HTTPException 400
              ("Unsupported file type '" +:+ lower (Path_suffix (filename file))
               +:+ "'. Allowed: " +:+ join ", " allowed_extensions)), fs).
Proof. intros Hext. unfold transcribe. by rewrite decide_True. Qed.

Lemma transcribe_no_temporary_file (e : exception) :
  lower (Path_suffix (filename file)) ∈ allowed_extensions →
  NamedTemporaryFile w (lower (Path_suffix (filename file))) = Raise e →
  transcribe w file fs = (Raise e, fs).
Proof.
  intros Hext Htemp. unfold transcribe.
  rewrite decide_False by (by intros Hn). by rewrite Htemp.
Qed.

(** With the temporary file created: either staging raised and the
    [finally] block faulted, or the rest of the [try] block ran under the
    generic catch and the file was unlinked. *)
Lemma transcribe_created (temp_file_name : string) :
  lower (Path_suffix (filename file)) ∈ allowed_extensions →
  NamedTemporaryFile w (lower (Path_suffix (filename file))) = Return temp_file_name →
  (∃ e, stage w file = Raise e
        ∧ transcribe w file fs
          = (Raise (UnboundLocalError "temp_path"), {[temp_file_name]} ∪ fs))
  ∨ (stage w file = Return ()
     ∧ transcribe w file fs
       = (try_except
            (transcription ← transcribe_audio w temp_file_name;
             structured ← structure_with_ollama w transcription;
             title ← getitem structured "title";
             markdown ← getitem structured "content";
             Return {| content :=
                         {[ "success" := PBool true;
                            "filename" := PStr (filename file);
                            "transcription" := PStr transcription;
                            "title" := title;
                            "markdown" := markdown ]} |})
            is_Exception
            (λ e, Raise (HTTPException 500 (str e))),
          fs ∖ {[temp_file_name]})).
Proof.
  intros Hext Htemp.
  rewrite (transcribe_accepted w file fs temp_file_name Hext Htemp).
  unfold transcribe_try, cleanup.
  destruct (stage w file) as [[]|e]; [right|left; eauto].
  split; [done|].
  rewrite decide_True
    by (apply elem_of_union; left; by apply elem_of_singleton).
  by rewrite unlink_created.
Qed.

(** What the generic catch lets out of the [try] block. *)
Lemma generic_catch_exits {A} (body : outcome A) :
  (∃ a, try_except body is_Exception (λ e, Raise (HTTPException 500 (str e)))
        = Return a)
  ∨ (∃ detail,
       try_except body is_Exception (λ e, Raise (HTTPException 500 (str e)))
       = Raise (HTTPException 500 detail))
  ∨ (∃ e, is_Exception e = false
          ∧ try_except body is_Exception (λ e, Raise (HTTPException 500 (str e)))
            = Raise e).
Proof.
  destruct body as [a|e]; simpl; [eauto|].
  destruct (is_Exception e) eqn:He; eauto.
Qed.

(** X8: once the extension is accepted and the temporary file created, the
    endpoint answers with status 200 or 500 and nothing else, whatever the
    upload stream, the recognizer and the generation service do; a 500
    carries none of the result fields.  In particular status 503 never
    reaches the caller. *)
Theorem X8_accepted_request_answers_200_or_500
    (temp_file_name : string) (response : HTTPResponse) :
  lower (Path_suffix (filename file)) ∈ allowed_extensions →
  NamedTemporaryFile w (lower (Path_suffix (filename file))) = Return temp_file_name →
  respond (fst (transcribe w file fs)) = Some response →
  status response = 200
  ∨ (status response = 500
     ∧ field response "markdown" = None ∧ field response "title" = None).
Proof.
  intros Hext Htemp.
  destruct (transcribe_created temp_file_name Hext Htemp)
    as [(e & _ & ->)|[_ ->]]; simpl fst.
  - intros [= <-]. right. by repeat split.
  - match goal with |- context [try_except ?b _ _] =>
      destruct (generic_catch_exits b) as [[a ->]|[[d ->]|(e & He & ->)]]
    end.
    + intros [= <-]. by left.
    + intros [= <-]. right. by repeat split.
    + destruct e; try discriminate He. discriminate.
Qed.

(** X9: provided creating the temporary file does not itself raise an
    [HTTPException], the endpoint answers 400 exactly when the lowercase
    suffix of the declared filename is outside the allow-list. *)
Theorem X9_status_400_iff_extension_not_allowed :
  (∀ status_code detail,
     NamedTemporaryFile w (lower (Path_suffix (filename file)))
     ≠ Raise (HTTPException status_code detail)) →
  (∃ response,
     respond (fst (transcribe w file fs)) = Some response
     ∧ status response = 400)
  ↔ lower (Path_suffix (filename file)) ∉ allowed_extensions.
Proof.
  intros Htemp. split.
  - intros (response & Hr & H400) Hext.
    destruct (NamedTemporaryFile w (lower (Path_suffix (filename file))))
      as [temp_file_name|e] eqn:Hcreate.
    + destruct (transcribe_created temp_file_name Hext Hcreate)
        as [(e & _ & Ht)|[_ Ht]]; rewrite Ht in Hr; simpl fst in Hr.
      * injection Hr as <-. discriminate H400.
      * match type of Hr with context [try_except ?b _ _] =>
          destruct (generic_catch_exits b) as [[a Hb]|[[d Hb]|(e & He & Hb)]];
            rewrite Hb in Hr
        end.
        -- injection Hr as <-. discriminate H400.
        -- injection Hr as <-. discriminate H400.
        -- destruct e; try discriminate He. discriminate Hr.
    + rewrite (transcribe_no_temporary_file e Hext Hcreate) in Hr.
      simpl fst in Hr. destruct e; simpl in Hr;
        try (injection Hr as <-; discriminate H400); try discriminate Hr.
      by destruct (Htemp status_code detail).
  - intros Hext. rewrite (transcribe_rejected Hext). eexists. by split.
Qed.

(** X10: the handler touches no file other than the temporary file it
    creates: a path that is not the name given to that file is on disk
    after the request exactly when it was before, on every exit. *)
Theorem X10_other_files_are_untouched (path : string) :
  NamedTemporaryFile w (lower (Path_suffix (filename file))) ≠ Return path →
  path ∈ snd (transcribe w file fs) ↔ path ∈ fs.
Proof.
  intros Hpath.
  destruct (decide (lower (Path_suffix (filename file)) ∈ allowed_extensions))
    as [Hext|Hext].
  - destruct (NamedTemporaryFile w (lower (Path_suffix (filename file))))
      as [temp_file_name|e] eqn:Hcreate.
    + assert (path ≠ temp_file_name) as Hne by congruence.
      destruct (transcribe_created temp_file_name Hext Hcreate)
        as [(e & _ & ->)|[_ ->]]; simpl snd.
      * rewrite elem_of_union, elem_of_singleton. tauto.
      * rewrite elem_of_difference, elem_of_singleton. tauto.
    + by rewrite (transcribe_no_temporary_file e Hext Hcreate).
  - by rewrite (transcribe_rejected Hext).
Qed.

(** X11: when the temporary file gets a name that was free and staging
    completes, the request leaves the disk exactly as it found it,
    whether it succeeds or fails later. *)
Theorem X11_staged_request_restores_the_disk (temp_file_name : string) :
  lower (Path_suffix (filename file)) ∈ allowed_extensions →
  NamedTemporaryFile w (lower (Path_suffix (filename file))) = Return temp_file_name →
  temp_file_name ∉ fs →
  stage w file = Return () →
  snd (transcribe w file fs) = fs.
Proof.
  intros Hext Htemp Hfresh Hstage.
  destruct (transcribe_created temp_file_name Hext Htemp)
    as [(e & He & _)|[_ ->]]; [congruence|]. simpl snd.
  apply set_eq. intros x. rewrite elem_of_difference, elem_of_singleton.
  split; [tauto|]. intros Hx. split; [done|]. by intros ->.
Qed.

(** X12: a returned response means the whole pipeline ran: the extension
    was accepted, the upload staged and transcribed, the adapter returned;
    the response has exactly the five fields, with success true, the
    declared filename unchanged, the transcript, and the adapter's title
    and content; and the temporary file is no longer on disk. *)
Theorem X12_success_means_the_pipeline_ran (r : JSONResponse) :
  fst (transcribe w file fs) = Return r →
  ∃ temp_file_name transcription structured title markdown,
    lower (Path_suffix (filename file)) ∈ allowed_extensions
    ∧ NamedTemporaryFile w (lower (Path_suffix (filename file)))
      = Return temp_file_name
    ∧ stage w file = Return ()
    ∧ transcribe_audio w temp_file_name = Return transcription
    ∧ structure_with_ollama w transcription = Return structured
    ∧ structured !! "title" = Some title
    ∧ structured !! "content" = Some markdown
    ∧ content r = {[ "success" := PBool true;
                     "filename" := PStr (filename file);
                     "transcription" := PStr transcription;
                     "title" := title;
                     "markdown" := markdown ]}
    ∧ temp_file_name ∉ snd (transcribe w file fs).
Proof.
  destruct (decide (lower (Path_suffix (filename file)) ∈ allowed_extensions))
    as [Hext|Hext]; [|by rewrite (transcribe_rejected Hext)].
  destruct (NamedTemporaryFile w (lower (Path_suffix (filename file))))
    as [temp_file_name|e] eqn:Hcreate;
    [|by rewrite (transcribe_no_temporary_file e Hext Hcreate)].
  destruct (transcribe_created temp_file_name Hext Hcreate)
    as [(e & _ & ->)|[Hstage ->]]; [discriminate|]. simpl fst. simpl snd.
  intros Hr.
  apply try_except_Return_inv in Hr as [Hr|(e & _ & _ & Hr)]; [|discriminate].
  apply bind_Return_inv in Hr as (transcription & Ht & Hr).
  apply bind_Return_inv in Hr as (structured & Hs & Hr).
  apply bind_Return_inv in Hr as (title & Htitle & Hr).
  apply bind_Return_inv in Hr as (markdown & Hmarkdown & [= <-]).
  exists temp_file_name, transcription, structured, title, markdown.
  repeat split; try done; try by apply getitem_Return_inv.
  rewrite elem_of_difference, elem_of_singleton. by intros [_ Hn].
Qed.

End exits.

(** ** Failures of the two engines, as the caller sees them *)

Section engines.
Context `{PyLib} (w : World) (file : UploadFile) (fs : gset string).
Context (temp_file_name : string).
Hypothesis Haccepted : lower (Path_suffix (filename file)) ∈ allowed_extensions.
Hypothesis Htemp :
  NamedTemporaryFile w (lower (Path_suffix (filename file))) = Return temp_file_name.
Hypothesis Hstaged : stage w file = Return ().

Lemma transcribe_transcription_raised (e : exception) :
  transcribe_audio w temp_file_name = Raise e →
  is_Exception e = true →
  transcribe w file fs
  = (Raise (HTTPException 500 (str e)), fs ∖ {[temp_file_name]}).
Proof.
  intros Ht He.
  destruct (transcribe_created w file fs temp_file_name Haccepted Htemp)
    as [(e' & He' & _)|[_ ->]]; [congruence|].
  run_with Ht. by rewrite He.
Qed.

(** X1: when the recognizer raises an [Exception], the adapter turns it
    into an [HTTPException] of status 500 whose detail starts with
    "Transcription failed: "; the handler answers 500, the temporary file
    is removed, and the generation service is not contacted: the request
    ends the same way whatever service is behind [requests.post]. *)
Theorem X1_recognizer_failure_answers_500 (e : exception) :
  model_transcribe w temp_file_name 5 = Raise e →
  is_Exception e = true →
  let failed := HTTPException 500 ("Transcription failed: " +:+ str e) in
  transcribe_audio w temp_file_name = Raise failed
  ∧ transcribe w file fs
    = (Raise (HTTPException 500 (str failed)), fs ∖ {[temp_file_name]})
  ∧ ∀ post, transcribe (with_requests_post w post) file fs = transcribe w file fs.
Proof.
  intros Hm He failed.
  assert (transcribe_audio w temp_file_name = Raise failed) as Ht.
  { unfold transcribe_audio. run_with Hm. by rewrite He. }
  split; [exact Ht|].
  rewrite (transcribe_transcription_raised failed Ht eq_refl).
  split; [done|]. intros post.
  destruct (transcribe_created (with_requests_post w post) file fs
              temp_file_name Haccepted Htemp)
    as [(e' & He' & _)|[_ ->]].
  - change (stage (with_requests_post w post) file) with (stage w file) in He'.
    congruence.
  - change (transcribe_audio (with_requests_post w post) temp_file_name)
      with (transcribe_audio w temp_file_name).
    run_with Ht. reflexivity.
Qed.

(** X2: when the generation service answers with a status other than 200,
    the adapter raises an [HTTPException] of status 500 quoting the body
    of the reply, without decoding it; the handler answers 500 and the
    temporary file is removed. *)
Theorem X2_failed_status_answers_500
    (transcription : string) (response : requests.Response) :
  transcribe_audio w temp_file_name = Return transcription →
  requests_post w (OLLAMA_URL w +:+ "/api/generate")
    (generate_request transcription) 120 = Return response →
  requests.status_code response ≠ 200 →
  let failed :=
    HTTPException 500 ("Ollama request failed: " +:+ requests.text response) in
  structure_with_ollama w transcription = Raise failed
  ∧ transcribe w file fs
    = (Raise (HTTPException 500 (str failed)), fs ∖ {[temp_file_name]})
  ∧ respond (fst (transcribe w file fs))
    = Some {| status := 500; body := PDict {[ "detail" := PStr (str failed) ]} |}.
Proof.
  intros Ht Hpost Hstatus failed.
  pose proof (structure_with_ollama_failed_status w transcription response
                Hpost Hstatus) as Hs.
  split; [exact Hs|].
  rewrite (transcribe_structuring_raised w file fs temp_file_name transcription
             Haccepted Htemp Hstaged Ht failed Hs eq_refl).
  by split.
Qed.

End engines.

(** ** More concrete requests on the reference library *)

Section reference_exits.
#[local] Existing Instance ref_lib.

(** Unreadable audio. *)
Lemma X1_recognizer_failure_answers_500_witness :
  transcribe (Example.deaf Example.unreachable Example.unreachable)
    Example.memo ∅
  = (Raise (HTTPException 500
       "500: Transcription failed: Invalid data found when processing input"),
     ∅ ∖ {[Example.memo_temp]}).
Proof.
  refine (proj1 (proj2 (X1_recognizer_failure_answers_500
    (Example.deaf Example.unreachable Example.unreachable) Example.memo ∅
    Example.memo_temp _ _ _
    (OtherException "Invalid data found when processing input") _ _)));
    compute_done.
Defined.

(** The service answers 500 "model not found". *)
Lemma X2_failed_status_answers_500_witness :
  respond (fst (transcribe
    (Example.server (Return (Example.reply 500 "model not found"))
       Example.unreachable) Example.memo ∅))
  = Some {| status := 500;
            body := PDict {[ "detail" :=
              PStr "500: Ollama request failed: model not found" ]} |}.
Proof.
  refine (proj2 (proj2 (X2_failed_status_answers_500
    (Example.server (Return (Example.reply 500 "model not found"))
       Example.unreachable) Example.memo ∅
    Example.memo_temp _ _ _ "Hello  world."
    (Example.reply 500 "model not found") _ _ _))); compute_done.
Defined.

(** A proxy answers 200 with an HTML page. *)
Lemma X3_undecodable_envelope_counts_as_unavailable_witness :
  structure_with_ollama
    (Example.server (Return (Example.reply 200 "<html>Bad Gateway</html>"))
       Example.unreachable) "Hello  world."
  = Raise (HTTPException 503 "Ollama service unavailable: Expecting value").
Proof.
  refine (proj1 (X3_undecodable_envelope_counts_as_unavailable
    (Example.server (Return (Example.reply 200 "<html>Bad Gateway</html>"))
       Example.unreachable) "Hello  world."
    (Example.reply 200 "<html>Bad Gateway</html>") _ _
    (RequestsJSONDecodeError "Expecting value") _) _); compute_done.
Defined.

(** The envelope [{"done":true}]. *)
Lemma X4_missing_response_field_is_empty_text_witness :
  structure_with_ollama
    (Example.server (Return (Example.reply 200 Example.bare_envelope))
       Example.unreachable) "Hello  world."
  = Return {[ "title" := PStr "Voice Note Transcription";
              "content" := PStr ("# Voice Note Transcription" +:+ nl +:+ nl) ]}.
Proof.
  refine (X4_missing_response_field_is_empty_text
    (Example.server (Return (Example.reply 200 Example.bare_envelope))
       Example.unreachable) "Hello  world."
    (Example.reply 200 Example.bare_envelope) _ _
    {[ "done" := PBool true ]} _
    (JSONDecodeError "Expecting value") _ _ _); compute_done.
Defined.

(** The envelope [{"response":5}]. *)
Lemma X5_non_string_response_field_faults_witness :
  ∃ msg,
    structure_with_ollama
      (Example.server (Return (Example.reply 200 Example.numeric_envelope))
         Example.unreachable) "Hello  world."
    = Raise (TypeError msg).
Proof.
  refine (X5_non_string_response_field_faults
    (Example.server (Return (Example.reply 200 Example.numeric_envelope))
       Example.unreachable) "Hello  world."
    (Example.reply 200 Example.numeric_envelope) _ _
    {[ "response" := PInt 5 ]} _ (PInt 5) _ _);
    first [ by intros s | compute_done ].
Defined.

(** The body [[1]]. *)
Lemma X6_non_object_envelope_faults_witness :
  ∃ msg,
    structure_with_ollama
      (Example.server (Return (Example.reply 200 Example.list_envelope))
         Example.unreachable) "Hello  world."
    = Raise (AttributeError msg).
Proof.
  refine (X6_non_object_envelope_faults
    (Example.server (Return (Example.reply 200 Example.list_envelope))
       Example.unreachable) "Hello  world."
    (Example.reply 200 Example.list_envelope) _ _
    (PList [PInt 1]) _ _);
    first [ by intros d | compute_done ].
Defined.

(** The adapter's result on the reply [object_text]. *)
Lemma X7_adapter_result_has_title_and_content_witness :
  ∃ title content,
    ({[ "title" := PStr "Groceries"; "content" := PStr Example.groceries ]}
       : gmap string pyvalue)
    = {[ "title" := title; "content" := content ]}
    ∧ getitem {[ "title" := PStr "Groceries";
                 "content" := PStr Example.groceries ]} "title"
      = Return title
    ∧ getitem {[ "title" := PStr "Groceries";
                 "content" := PStr Example.groceries ]} "content"
      = Return content.
Proof.
  refine (X7_adapter_result_has_title_and_content
    (Example.answering Example.object_text) "Hello  world." _ _).
  compute_done.
Defined.

(** The unreachable service again: the status is one of the two. *)
Lemma X8_accepted_request_answers_200_or_500_witness :
  let response :=
    {| status := 500;
       body := PDict {[ "detail" :=
         PStr "503: Ollama service unavailable: Connection refused" ]} |} in
  status response = 200
  ∨ (status response = 500
     ∧ field response "markdown" = None ∧ field response "title" = None).
Proof.
  refine (X8_accepted_request_answers_200_or_500
    (Example.server Example.unreachable Example.unreachable) Example.memo ∅
    Example.memo_temp _ _ _ _); compute_done.
Defined.

(** [notes.txt] is answered 400. *)
Lemma X9_status_400_iff_extension_not_allowed_witness :
  ∃ response,
    respond (fst (transcribe
      (Example.server Example.unreachable Example.unreachable)
      Example.notes ∅)) = Some response
    ∧ status response = 400.
Proof.
  refine (proj2 (X9_status_400_iff_extension_not_allowed
    (Example.server Example.unreachable Example.unreachable)
    Example.notes ∅ _) _);
    first [ by intros status_code detail | compute_done ].
Defined.

(** Monday's notes survive a request that fails on a full disk. *)
Lemma X10_other_files_are_untouched_witness :
  Example.monday
  ∈ snd (transcribe (Example.full_disk Example.unreachable Example.unreachable)
           Example.memo {[Example.monday]}).
Proof.
  refine (proj2 (X10_other_files_are_untouched
    (Example.full_disk Example.unreachable Example.unreachable)
    Example.memo {[Example.monday]} Example.monday _) _);
    first [ by intros [=] | compute_done ].
Defined.

(** A successful request leaves only Monday's notes on disk. *)
Lemma X11_staged_request_restores_the_disk_witness :
  snd (transcribe (Example.answering Example.object_text)
         Example.memo {[Example.monday]})
  = {[Example.monday]}.
Proof.
  refine (X11_staged_request_restores_the_disk
    (Example.answering Example.object_text) Example.memo {[Example.monday]}
    Example.memo_temp _ _ _ _); compute_done.
Defined.

(** The successful request, read backwards. *)
Lemma X12_success_means_the_pipeline_ran_witness :
  ∃ temp_file_name transcription structured title markdown,
    lower (Path_suffix (filename Example.memo)) ∈ allowed_extensions
    ∧ NamedTemporaryFile (Example.answering Example.object_text)
        (lower (Path_suffix (filename Example.memo)))
      = Return temp_file_name
    ∧ stage (Example.answering Example.object_text) Example.memo = Return ()
    ∧ transcribe_audio (Example.answering Example.object_text) temp_file_name
      = Return transcription
    ∧ structure_with_ollama (Example.answering Example.object_text) transcription
      = Return structured
    ∧ structured !! "title" = Some title
    ∧ structured !! "content" = Some markdown
    ∧ content Example.groceries_answer
      = {[ "success" := PBool true;
           "filename" := PStr (filename Example.memo);
           "transcription" := PStr transcription;
           "title" := title;
           "markdown" := markdown ]}
    ∧ temp_file_name
      ∉ snd (transcribe (Example.answering Example.object_text) Example.memo ∅).
Proof.
  refine (X12_success_means_the_pipeline_ran
    (Example.answering Example.object_text) Example.memo ∅
    Example.groceries_answer _).
  compute_done.
Defined.

End reference_exits.
